(** * Display-Ambient-Light-Desktop: the UDP debug tools

    A shallow embedding of [debug_tools/virtual_led_board.py] (the device
    responder) and [debug_tools/packet_interceptor.py] (the intercepting
    relay), and the properties of the wire protocol they implement.

    Python objects become records, methods become computations in a small
    state-and-exception monad, and every interaction with the outside world
    ([print], socket calls, zeroconf calls) is appended to a trace.  Whether
    an outside call raises is decided by an arbitrary environment.

    Three things are taken for granted: [print] does not raise; nothing is
    raised asynchronously ([KeyboardInterrupt]); and [recvfrom(n)] on a
    datagram longer than [n] bytes hands over its first [n] bytes and
    discards the rest, as POSIX sockets do. *)

From Stdlib Require Import String ZArith Arith PeanoNat Bool List Lia.
From Stdlib.Strings Require Import Byte.
Import ListNotations.

Set Implicit Arguments.

(* ====================================================================== *)
(** * The Python run-time the two tools rely on *)
(* ====================================================================== *)

Module Py.

(** [bytes] objects; indexing one yields an [int] in [0..255]. *)
Definition bytes := list byte.

Definition byte_int (b : byte) : Z := Z.of_N (Byte.to_N b).

(** A socket address, the tuple [(host, port)]. *)
Definition addr := (string * Z)%type.

Definition handle := nat.

(** [data[a:b]] for [0 <= a <= b]; slices clamp, they never raise. *)
Definition slice (data : bytes) (a b : nat) : bytes :=
  firstn (b - a) (skipn a data).

(** [range(n)] and [range(0, stop, step)]. *)
Definition range (n : nat) : list nat := seq 0 n.

Definition range_step (stop step : nat) : list nat :=
  map (fun k => k * step) (seq 0 ((stop + step - 1) / step)).

(** The exceptions that occur; all of them derive from [Exception], and
    [socket.timeout] is the only one an [except socket.timeout] catches. *)
Inductive exn :=
| OSError | SocketTimeout | AttributeError | ValueError | IndexError
| UnboundLocalError | RuntimeError.

Definition is_timeout (e : exn) : bool :=
  match e with SocketTimeout => true | _ => false end.

(** The record zeroconf's [ServiceInfo] is built from. *)
Record ServiceInfo := {
  type_ : string;
  name : string;
  addresses : list bytes;
  sport : Z;
  properties : list (string * string)
}.

(** ** What the tools print

    One constructor per [print] statement, carrying the interpolated
    values; [B..] lines belong to virtual_led_board.py, [R..] lines to
    packet_interceptor.py.  The number is the source line. *)
Inductive line :=
(* virtual_led_board.py *)
| BStarted                                   (* 49 *)
| BListening (host : string) (port : Z)      (* 50 *)
| BDeviceName (n : string)                   (* 51 *)
| BStartTime (t : Z)                         (* 52 *)
| BMdnsPublished                             (* 57 *)
| BMdnsPublishFailed                         (* 59 *)
| BMdnsDisabled                              (* 61 *)
| BRule                                      (* 63 *)
| BStartFailed (e : exn)                     (* 73 *)
| BMdnsUnregistered                          (* 85 *)
| BMdnsUnregisterFailed (e : exn)            (* 87 *)
| BStopped                                   (* 92 *)
| BNoLocalIp                                 (* 100 *)
| BLocalIp (ip : string)                     (* 131 *)
| BServiceType (s : string)                  (* 132 *)
| BServiceName (s : string)                  (* 133 *)
| BTxt (props : list (string * string))      (* 134 *)
| BMdnsStartFailed (e : exn)                 (* 139 *)
| BReceiveError (e : exn)                    (* 169 *)
| BPacket (count : nat) (t : Z) (interval : option Z)   (* 184 *)
| BSource (a : addr)                         (* 185 *)
| BLength (n : nat)                          (* 186 *)
| BEmptyPacket                               (* 189 *)
| BCommand (c : Z)                           (* 194 *)
| BHeartbeatCmd                              (* 197 *)
| BLedDataCmd                                (* 200 *)
| BConfigCmd                                 (* 204 *)
| BConnectionCmd                             (* 207 *)
| BUnknownCmd (c : Z)                        (* 210 *)
| BLedTooShort                               (* 216 *)
| BOffset (offset : Z)                       (* 223 *)
| BLedDataLength (n : nat)                   (* 224 *)
| BRawHeader                                 (* 231 *)
| BHeartbeatSent                             (* 240 *)
| BHeartbeatFailed (e : exn)                 (* 242 *)
| BAckSent                                   (* 250 *)
| BAckFailed (e : exn)                       (* 252 *)
| BConnectionSent                            (* 260 *)
| BConnectionFailed (e : exn)                (* 262 *)
| BColorsHeader                              (* 267 *)
| BGrbCount (n : nat)                        (* 272 *)
| BGrbLed (i : nat) (g r b : Z)              (* 276 *)
| BGrbwCount (n : nat)                       (* 281 *)
| BGrbwLed (i : nat) (g r b w : Z)           (* 285 *)
| BHexRow (i : nat) (chunk : bytes)          (* 292 *)
(* packet_interceptor.py *)
| RStarting                                  (* 21 *)
| RListenPort (p : Z)                        (* 22 *)
| RTarget (ip : string) (p : Z)              (* 23 *)
| RRule                                      (* 24 *)
| RStarted                                   (* 35 *)
| RHint (p : Z)                              (* 36 *)
| RBlank                                     (* 37 *)
| RForwarded                                 (* 50 *)
| RDash                                      (* 51 *)
| RPacketError (e : exn)                     (* 56 *)
| RStartFailed (e : exn)                     (* 59 *)
| RPacket (count : nat) (t : Z)              (* 71 *)
| RSource (a : addr)                         (* 72 *)
| RLength (n : nat)                          (* 73 *)
| RCommand (c : Z)                           (* 80 *)
| ROffset (offset : Z)                       (* 81 *)
| RLedDataLength (n : nat)                   (* 82 *)
| RRawHeader (n : nat)                       (* 91 *)
| RRawHex (chunk : bytes)                    (* 92 *)
| RRawAscii (chunk : bytes)                  (* 93 *)
| RTooShort                                  (* 95 *)
| RGrbCount (n : nat)                        (* 104 *)
| RGrbLed (i : nat) (g r b : Z)              (* 110 *)
| RGrbwCount (n : nat)                       (* 115 *)
| RGrbwLed (i : nat) (g r b w : Z)           (* 121 *)
| RStopping.                                 (* 126 *)

(** The threads a tool starts. *)
Inductive thread_target := ReceiveLoop.

(** ** Calls into the outside world, in the order they are made *)
Inductive effect :=
| Stdout (l : line)
| SocketNew (h : handle)
| Setsockopt (h : handle)
| Bind (h : handle) (a : addr)
| Sendto (h : handle) (payload : bytes) (dest : addr)
| Close (h : handle)
| GetHostName
| GetHostByName (host : string)
| InetAton (ip : string)
| ServiceInfoNew (info : ServiceInfo)
| ZcNew (z : handle)
| ZcRegister (z : handle) (info : ServiceInfo)
| ZcUnregister (z : handle) (info : ServiceInfo)
| ZcClose (z : handle)
| ThreadStart (t : thread_target).

(** The outside world: it decides, from everything that happened so far,
    whether a call raises, and it supplies the clock and the resolver. *)
Record environment := {
  faults : list effect -> effect -> option exn;
  clock : list effect -> Z;
  hostname : string;
  host_ip : string -> string;
  aton : string -> bytes
}.

Inductive sock_state :=
| SockOpen (bound : option addr)
| SockClosed.

(** The operating system as the tools see it: the trace, the sockets by
    handle, the zeroconf instances by handle ([true] while open) and the
    advertisements currently published on the network. *)
Record os := {
  trace : list effect;
  socks : list sock_state;
  zeroconfs : list bool;
  published : list ServiceInfo
}.

Definition boot : os :=
  {| trace := []; socks := []; zeroconfs := []; published := [] |}.

Definition log (e : effect) (o : os) : os :=
  {| trace := trace o ++ [e]; socks := socks o;
     zeroconfs := zeroconfs o; published := published o |}.

Fixpoint set_nth {A : Type} (n : nat) (x : A) (l : list A) : list A :=
  match l, n with
  | [], _ => []
  | _ :: t, O => x :: t
  | y :: t, S k => y :: set_nth k x t
  end.

Definition with_socks (f : list sock_state -> list sock_state) (o : os) : os :=
  {| trace := trace o; socks := f (socks o);
     zeroconfs := zeroconfs o; published := published o |}.

Definition with_zeroconfs (f : list bool -> list bool) (o : os) : os :=
  {| trace := trace o; socks := socks o;
     zeroconfs := f (zeroconfs o); published := published o |}.

Definition with_published (f : list ServiceInfo -> list ServiceInfo)
    (o : os) : os :=
  {| trace := trace o; socks := socks o;
     zeroconfs := zeroconfs o; published := f (published o) |}.

Definition is_open (l : list sock_state) (h : handle) : bool :=
  match nth_error l h with
  | Some (SockOpen _) => true
  | _ => false
  end.

Definition sock_is_open (o : os) (h : handle) : bool := is_open (socks o) h.

(** The handles of the sockets that are open. *)
Definition open_sockets (o : os) : list handle :=
  filter (sock_is_open o) (seq 0 (length (socks o))).

(** The [sendto] calls of a trace. *)
Fixpoint sendto_calls (tr : list effect) : list (handle * bytes * addr) :=
  match tr with
  | [] => []
  | Sendto h p d :: t => (h, p, d) :: sendto_calls t
  | _ :: t => sendto_calls t
  end.

(** The lines printed in a trace. *)
Fixpoint printed (tr : list effect) : list line :=
  match tr with
  | [] => []
  | Stdout l :: t => l :: printed t
  | _ :: t => printed t
  end.

(** ** The monad: an object, the operating system, and exceptions *)

Record st (Self : Type) := { self : Self; sys : os }.

Inductive outcome (A : Type) :=
| Done (a : A)
| Raised (e : exn).
Arguments Raised {A} e.

Definition M (Self A : Type) : Type := st Self -> outcome A * st Self.

Section Monad.
Context {Self : Type}.

Definition ret {A} (a : A) : M Self A := fun s => (Done a, s).

Definition bind {A B} (c : M Self A) (k : A -> M Self B) : M Self B :=
  fun s => match c s with
           | (Done a, s') => k a s'
           | (Raised e, s') => (Raised e, s')
           end.

Definition raise {A} (e : exn) : M Self A := fun s => (Raised e, s).

(** [try: c  except Exception as e: h e] *)
Definition try_except {A} (c : M Self A) (h : exn -> M Self A) : M Self A :=
  fun s => match c s with
           | (Done a, s') => (Done a, s')
           | (Raised e, s') => h e s'
           end.

Definition get_self : M Self Self := fun s => (Done (self s), s).

Definition modify_self (f : Self -> Self) : M Self unit :=
  fun s => (Done tt, {| self := f (self s); sys := sys s |}).

Definition get_os : M Self os := fun s => (Done (sys s), s).

Definition modify_os (f : os -> os) : M Self unit :=
  fun s => (Done tt, {| self := self s; sys := f (sys s) |}).

Definition print (l : line) : M Self unit := modify_os (log (Stdout l)).

(** [for x in xs: body x] *)
Fixpoint for_each {A} (xs : list A) (body : A -> M Self unit) : M Self unit :=
  match xs with
  | [] => ret tt
  | x :: t => bind (body x) (fun _ => for_each t body)
  end.

(** [data[i]] on a [bytes] object. *)
Definition getitem (data : bytes) (i : nat) : M Self Z :=
  match nth_error data i with
  | Some b => ret (byte_int b)
  | None => raise IndexError
  end.

(** [a, b, c = xs] and [a, b, c, d = xs]. *)
Definition unpack3 (xs : bytes) : M Self (Z * Z * Z) :=
  match xs with
  | [a; b; c] => ret (byte_int a, byte_int b, byte_int c)
  | _ => raise ValueError
  end.

Definition unpack4 (xs : bytes) : M Self (Z * Z * Z * Z) :=
  match xs with
  | [a; b; c; d] => ret (byte_int a, byte_int b, byte_int c, byte_int d)
  | _ => raise ValueError
  end.

Variable env : environment.

(** A call that the outside world may make raise. *)
Definition call (e : effect) : M Self unit :=
  fun s => let s' := {| self := self s; sys := log e (sys s) |} in
           match faults env (trace (sys s)) e with
           | None => (Done tt, s')
           | Some x => (Raised x, s')
           end.

(** [datetime.now()], in microseconds. *)
Definition now : M Self Z := fun s => (Done (clock env (trace (sys s))), s).

(** [socket.socket(AF_INET, SOCK_DGRAM)] *)
Definition socket_new : M Self handle :=
  bind get_os (fun o =>
  let h := length (socks o) in
  bind (call (SocketNew h)) (fun _ =>
  bind (modify_os (with_socks (fun l => l ++ [SockOpen None]))) (fun _ =>
  ret h))).

Definition setsockopt (h : handle) : M Self unit := call (Setsockopt h).

Definition sock_bind (h : handle) (a : addr) : M Self unit :=
  bind (call (Bind h a)) (fun _ =>
  modify_os (with_socks (set_nth h (SockOpen (Some a))))).

(** [sock.sendto(payload, dest)]; a closed socket raises. *)
Definition sendto (h : handle) (payload : bytes) (dest : addr) : M Self unit :=
  bind get_os (fun o =>
  bind (call (Sendto h payload dest)) (fun _ =>
  if sock_is_open o h then ret tt else raise OSError)).

(** [sock.close()]; closing twice is harmless and it does not raise. *)
Definition sock_close (h : handle) : M Self unit :=
  modify_os (fun o => with_socks (set_nth h SockClosed) (log (Close h) o)).

(** [socket.gethostname()], [socket.gethostbyname(h)], [socket.inet_aton(ip)] *)
Definition gethostname : M Self string :=
  bind (call GetHostName) (fun _ => ret (hostname env)).

Definition gethostbyname (h : string) : M Self string :=
  bind (call (GetHostByName h)) (fun _ => ret (host_ip env h)).

Definition inet_aton (ip : string) : M Self bytes :=
  bind (call (InetAton ip)) (fun _ => ret (aton env ip)).

(** [Zeroconf()] *)
Definition zeroconf_new : M Self handle :=
  bind get_os (fun o =>
  let z := length (zeroconfs o) in
  bind (call (ZcNew z)) (fun _ =>
  bind (modify_os (with_zeroconfs (fun l => l ++ [true]))) (fun _ =>
  ret z))).

(** [zc.register_service(info)]: the record becomes visible on the network. *)
Definition register_service (z : handle) (info : ServiceInfo) : M Self unit :=
  bind (call (ZcRegister z info)) (fun _ =>
  modify_os (with_published (fun l => l ++ [info]))).

(** [zc.unregister_service(info)]: zeroconf keys its registry by the
    record's name. *)
Definition unregister_service (z : handle) (info : ServiceInfo) : M Self unit :=
  bind (call (ZcUnregister z info)) (fun _ =>
  modify_os (with_published
    (filter (fun i => negb (String.eqb (name i) (name info)))))).

(** [zc.close()] *)
Definition zeroconf_close (z : handle) : M Self unit :=
  bind (call (ZcClose z)) (fun _ =>
  modify_os (with_zeroconfs (set_nth z false))).

(** [threading.Thread(target=...).start()] *)
Definition thread_start (t : thread_target) : M Self unit :=
  call (ThreadStart t).

End Monad.

Declare Scope py_scope.
Delimit Scope py_scope with py.
Notation "x <- c ;; k" := (bind c (fun x => k))
  (at level 61, c at next level, right associativity) : py_scope.
Notation "c ;; k" := (bind c (fun _ => k))
  (at level 61, right associativity) : py_scope.

(** What [recvfrom(bufsize)] hands over of a datagram: at most [bufsize]
    bytes, the rest of the datagram is discarded. *)
Definition recvfrom (bufsize : Z) (datagram : bytes) : bytes :=
  firstn (Z.to_nat bufsize) datagram.

(** What can happen while a receive loop is blocked in [recvfrom]. *)
Inductive arrival :=
| Datagram (payload : bytes) (src : addr)
| RecvRaises (e : exn)
| StopCalled.

(** ** Observing a run *)

(** The state after some lines were printed and nothing else happened. *)
Definition emits (ls : list line) (o : os) : os :=
  {| trace := trace o ++ map Stdout ls; socks := socks o;
     zeroconfs := zeroconfs o; published := published o |}.

Definition emit {Self : Type} (ls : list line) (s : st Self) : st Self :=
  {| self := self s; sys := emits ls (sys s) |}.

(** The state after one more call was made, with no other change. *)
Definition record {Self : Type} (e : effect) (s : st Self) : st Self :=
  {| self := self s; sys := log e (sys s) |}.

(** A computation that prints [ls], returns, and does nothing else. *)
Definition says {Self : Type} (c : M Self unit) (ls : list line) : Prop :=
  forall s, c s = (Done tt, emit ls s).

(** The values a selector finds in the lines printed, in order. *)
Definition pick {A : Type} (f : line -> option A) (ls : list line) : list A :=
  flat_map (fun l => match f l with Some a => [a] | None => [] end) ls.

(** What was appended to the trace between two states of the system. *)
Definition new_effects (before after : os) : list effect :=
  skipn (length (trace before)) (trace after).

(** The largest payload a UDP datagram carries over IPv4:
    65535 - 8 (UDP header) - 20 (IP header). *)
Definition udp_max_payload : nat := Z.to_nat 65507.

(** How far a receive loop got: it left the loop, or it still waits in
    [recvfrom] once every arrival has been consumed. *)
Inductive loop_status := Exited | Blocked.

End Py.

(* ====================================================================== *)
(** * virtual_led_board.py: the device responder *)
(* ====================================================================== *)

Module VirtualLedBoard.
Import Py.
Local Open Scope py_scope.
Local Open Scope nat_scope.

(** The attributes of the object (lines 26-38). *)
Record t := {
  host : string;
  port : Z;
  device_name : string;
  socket : option handle;
  running : bool;
  packet_count : nat;
  last_packet_time : option Z;
  zeroconf : option handle;
  service_info : option ServiceInfo;
  mdns_enabled : bool
}.

(** Lines 26-38; [MDNS_AVAILABLE] is fixed when the module is imported
    (lines 16-23). *)
Definition __init__ (MDNS_AVAILABLE : bool) (host : string) (port : Z)
    (device_name : string) : t :=
  {| host := host; port := port; device_name := device_name;
     socket := None; running := false; packet_count := 0;
     last_packet_time := None; zeroconf := None; service_info := None;
     mdns_enabled := MDNS_AVAILABLE |}.

Definition set_socket (v : option handle) (b : t) : t :=
  {| host := host b; port := port b; device_name := device_name b;
     socket := v; running := running b; packet_count := packet_count b;
     last_packet_time := last_packet_time b; zeroconf := zeroconf b;
     service_info := service_info b; mdns_enabled := mdns_enabled b |}.

Definition set_running (v : bool) (b : t) : t :=
  {| host := host b; port := port b; device_name := device_name b;
     socket := socket b; running := v; packet_count := packet_count b;
     last_packet_time := last_packet_time b; zeroconf := zeroconf b;
     service_info := service_info b; mdns_enabled := mdns_enabled b |}.

Definition set_packet_count (v : nat) (b : t) : t :=
  {| host := host b; port := port b; device_name := device_name b;
     socket := socket b; running := running b; packet_count := v;
     last_packet_time := last_packet_time b; zeroconf := zeroconf b;
     service_info := service_info b; mdns_enabled := mdns_enabled b |}.

Definition set_last_packet_time (v : option Z) (b : t) : t :=
  {| host := host b; port := port b; device_name := device_name b;
     socket := socket b; running := running b; packet_count := packet_count b;
     last_packet_time := v; zeroconf := zeroconf b;
     service_info := service_info b; mdns_enabled := mdns_enabled b |}.

Definition set_zeroconf (v : option handle) (b : t) : t :=
  {| host := host b; port := port b; device_name := device_name b;
     socket := socket b; running := running b; packet_count := packet_count b;
     last_packet_time := last_packet_time b; zeroconf := v;
     service_info := service_info b; mdns_enabled := mdns_enabled b |}.

Definition set_service_info (v : option ServiceInfo) (b : t) : t :=
  {| host := host b; port := port b; device_name := device_name b;
     socket := socket b; running := running b; packet_count := packet_count b;
     last_packet_time := last_packet_time b; zeroconf := zeroconf b;
     service_info := v; mdns_enabled := mdns_enabled b |}.

Section Methods.
Variable env : environment.

(** [self.socket.sendto(...)]: without a socket the attribute access on
    [None] raises. *)
Definition self_socket : M t handle :=
  self <- get_self ;;
  match socket self with
  | Some h => ret h
  | None => raise AttributeError
  end.

(** Lines 287-292. *)
Definition _print_hex_dump (data : bytes) : M t unit :=
  for_each (range_step (length data) 16)
    (fun i => print (BHexRow i (slice data i (i + 16)))).

(** Lines 264-285. *)
Definition _analyze_led_colors (led_data : bytes) (offset : Z) : M t unit :=
  print BColorsHeader ;;
  (if length led_data mod 3 =? 0 then
     let led_count_grb := length led_data / 3 in
     print (BGrbCount led_count_grb) ;;
     for_each (range (Nat.min 5 led_count_grb))
       (fun i =>
          let start_idx := i * 3 in
          grb <- unpack3 (slice led_data start_idx (start_idx + 3)) ;;
          let '(g, r, b) := grb in
          print (BGrbLed (i + 1) g r b))
   else ret tt) ;;
  (if length led_data mod 4 =? 0 then
     let led_count_grbw := length led_data / 4 in
     print (BGrbwCount led_count_grbw) ;;
     for_each (range (Nat.min 5 led_count_grbw))
       (fun i =>
          let start_idx := i * 4 in
          grbw <- unpack4 (slice led_data start_idx (start_idx + 4)) ;;
          let '(g, r, b, w) := grbw in
          print (BGrbwLed (i + 1) g r b w))
   else ret tt).

(** Lines 213-232. *)
Definition _analyze_led_data_packet (data : bytes) : M t unit :=
  if length data <? 3 then
    print BLedTooShort
  else
    d1 <- getitem data 1 ;;
    d2 <- getitem data 2 ;;
    let offset := Z.lor (Z.shiftl d1 8) d2 in
    let led_data := skipn 3 data in
    print (BOffset offset) ;;
    print (BLedDataLength (length led_data)) ;;
    (if 0 <? length led_data then _analyze_led_colors led_data offset
     else ret tt) ;;
    print BRawHeader ;;
    _print_hex_dump (firstn (Nat.min 32 (length data)) data).

(** Lines 234-242. *)
Definition _send_heartbeat_response (addr : addr) : M t unit :=
  try_except
    (let response := [x01] in
     sock <- self_socket ;;
     sendto env sock response addr ;;
     print BHeartbeatSent)
    (fun e => print (BHeartbeatFailed e)).

(** Lines 244-252. *)
Definition _send_ack_response (addr : addr) : M t unit :=
  try_except
    (let response := [x00] in
     sock <- self_socket ;;
     sendto env sock response addr ;;
     print BAckSent)
    (fun e => print (BAckFailed e)).

(** Lines 254-262. *)
Definition _send_connection_response (addr : addr) : M t unit :=
  try_except
    (let response := [x04; x01] in
     sock <- self_socket ;;
     sendto env sock response addr ;;
     print BConnectionSent)
    (fun e => print (BConnectionFailed e)).

(** Lines 172-211. *)
Definition _process_packet (data : bytes) (addr : addr) : M t unit :=
  modify_self (fun b => set_packet_count (packet_count b + 1) b) ;;
  current_time <- now env ;;
  self <- get_self ;;
  let time_interval :=
    match last_packet_time self with
    | Some last => Some (current_time - last)%Z
    | None => None
    end in
  modify_self (set_last_packet_time (Some current_time)) ;;
  self <- get_self ;;
  print (BPacket (packet_count self) current_time time_interval) ;;
  print (BSource addr) ;;
  print (BLength (length data)) ;;
  if length data =? 0 then
    print BEmptyPacket
  else
    command <- getitem data 0 ;;
    print (BCommand command) ;;
    if (command =? 1)%Z then
      print BHeartbeatCmd ;;
      _send_heartbeat_response addr
    else if (command =? 2)%Z then
      print BLedDataCmd ;;
      _analyze_led_data_packet data ;;
      _send_ack_response addr
    else if (command =? 3)%Z then
      print BConfigCmd ;;
      _send_ack_response addr
    else if (command =? 4)%Z then
      print BConnectionCmd ;;
      _send_connection_response addr
    else
      print (BUnknownCmd command) ;;
      _print_hex_dump data.

(** Lines 142-156.  Line 152 imports [socket] inside the function, which
    makes [socket] a local name of the whole function body: line 146 reads
    it before it is bound, so the first attempt always raises and the
    host-name lookup is what runs. *)
Definition _get_local_ip : M t (option string) :=
  try_except
    (raise UnboundLocalError)
    (fun _ =>
       try_except
         (hostname <- gethostname env ;;
          ip <- gethostbyname env hostname ;;
          ret (Some ip))
         (fun _ => ret None)).

Definition txt_properties : list (string * string) :=
  [("protocol", "udp"); ("max_leds", "500"); ("type", "ambient_light");
   ("device", "virtual_board"); ("version", "1.0"); ("debug", "true")]%string.

(** [not local_ip]: [None] and the empty string are false. *)
Definition truthy (local_ip : option string) : bool :=
  match local_ip with
  | Some ip => negb (String.eqb ip "")
  | None => false
  end.

(** Lines 94-140. *)
Definition _start_mdns_service : M t bool :=
  try_except
    (local_ip <- _get_local_ip ;;
     if negb (truthy local_ip) then
       print BNoLocalIp ;;
       ret false
     else
       let ip := match local_ip with Some ip => ip | None => ""%string end in
       let service_type := "_ambient-light._udp.local."%string in
       let service_name := "Virtual-LED-Board-Debug"%string in
       packed <- inet_aton env ip ;;
       self <- get_self ;;
       let info :=
         {| type_ := service_type;
            name := (service_name ++ "." ++ service_type)%string;
            addresses := [packed];
            sport := port self;
            properties := txt_properties |} in
       call env (ServiceInfoNew info) ;;
       modify_self (set_service_info (Some info)) ;;
       z <- zeroconf_new env ;;
       modify_self (set_zeroconf (Some z)) ;;
       register_service env z info ;;
       print (BLocalIp ip) ;;
       print (BServiceType service_type) ;;
       print (BServiceName service_name) ;;
       print (BTxt txt_properties) ;;
       ret true)
    (fun e => print (BMdnsStartFailed e) ;; ret false).

(** Lines 40-74. *)
Definition start : M t bool :=
  try_except
    (h <- socket_new env ;;
     modify_self (set_socket (Some h)) ;;
     setsockopt env h ;;
     self <- get_self ;;
     sock_bind env h (host self, port self) ;;
     modify_self (set_running true) ;;
     print BStarted ;;
     print (BListening (host self) (port self)) ;;
     print (BDeviceName (device_name self)) ;;
     started <- now env ;;
     print (BStartTime started) ;;
     (if mdns_enabled self then
        published <- _start_mdns_service ;;
        if published then print BMdnsPublished
        else print BMdnsPublishFailed
      else print BMdnsDisabled) ;;
     print BRule ;;
     thread_start env ReceiveLoop ;;
     ret true)
    (fun e => print (BStartFailed e) ;; ret false).

(** Lines 76-92. *)
Definition stop : M t unit :=
  modify_self (set_running false) ;;
  self <- get_self ;;
  match zeroconf self, service_info self with
  | Some z, Some info =>
      try_except
        (unregister_service env z info ;;
         zeroconf_close env z ;;
         print BMdnsUnregistered)
        (fun e => print (BMdnsUnregisterFailed e))
  | _, _ => ret tt
  end ;;
  match socket self with
  | Some h => sock_close h
  | None => ret tt
  end ;;
  print BStopped.

(** One pass through the body of the [while] of lines 160-170, given what
    [recvfrom(1024)] comes back with; the result says whether the loop
    goes on.  A socket that has been closed delivers nothing. *)
Definition receive_once (a : arrival) : M t bool :=
  try_except
    (match a with
     | Datagram payload src =>
         sock <- self_socket ;;
         o <- get_os ;;
         if sock_is_open o sock then
           let data := recvfrom 1024 payload in
           _process_packet data src
         else raise OSError
     | RecvRaises e => raise e
     | StopCalled => ret tt
     end ;;
     ret true)
    (fun e =>
       if is_timeout e then ret true
       else
         self <- get_self ;;
         (if running self then print (BReceiveError e) else ret tt) ;;
         ret false).

(** The thread waits in [recvfrom]; [stop()] may run on another thread
    meanwhile. *)
Fixpoint receive_wait (arrivals : list arrival) : M t loop_status :=
  match arrivals with
  | [] => ret Blocked
  | StopCalled :: rest => stop ;; receive_wait rest
  | a :: rest =>
      continue <- receive_once a ;;
      self <- get_self ;;
      if continue && running self then receive_wait rest else ret Exited
  end.

(** Lines 158-170. *)
Definition _receive_loop (arrivals : list arrival) : M t loop_status :=
  self <- get_self ;;
  if running self then receive_wait arrivals else ret Exited.

End Methods.

(** ** What a datagram makes the responder do *)

Definition after (env : environment) (data : bytes) (addr : addr)
    (s : st t) : st t :=
  snd (_process_packet env data addr s).

(** The [sendto] calls made while a datagram is handled. *)
Definition replies (env : environment) (data : bytes) (addr : addr)
    (s : st t) : list (handle * bytes * Py.addr) :=
  sendto_calls (new_effects (sys s) (sys (after env data addr s))).

(** The lines printed while a datagram is handled. *)
Definition diagnostics (env : environment) (data : bytes) (addr : addr)
    (s : st t) : list line :=
  printed (new_effects (sys s) (sys (after env data addr s))).

(** The LED counts, offsets and LED data lengths among printed lines. *)
Definition grb_counts : list line -> list nat :=
  pick (fun l => match l with BGrbCount n => Some n | _ => None end).

Definition grbw_counts : list line -> list nat :=
  pick (fun l => match l with BGrbwCount n => Some n | _ => None end).

Definition offsets : list line -> list Z :=
  pick (fun l => match l with BOffset o => Some o | _ => None end).

Definition led_data_lengths : list line -> list nat :=
  pick (fun l => match l with BLedDataLength n => Some n | _ => None end).

(** The object once lines 174-182 have run. *)
Definition stamped (env : environment) (s : st t) : st t :=
  {| self := set_last_packet_time (Some (clock env (trace (sys s))))
               (set_packet_count (packet_count (self s) + 1) (self s));
     sys := sys s |}.

(** The lines of 184-186. *)
Definition banner (env : environment) (data : bytes) (addr : addr)
    (s : st t) : list line :=
  let current_time := clock env (trace (sys s)) in
  [BPacket (packet_count (self s) + 1) current_time
     (match last_packet_time (self s) with
      | Some last => Some (current_time - last)%Z
      | None => None
      end);
   BSource addr;
   BLength (length data)].

(** The rows [_print_hex_dump] prints. *)
Definition hex_rows (data : bytes) : list line :=
  map (fun i => BHexRow i (slice data i (i + 16)))
      (range_step (length data) 16).

(** The [int] at position [i] of a [bytes] object that is long enough. *)
Definition at_ (data : bytes) (i : nat) : Z := byte_int (nth i data x00).

Definition grb_report (led_data : bytes) : list line :=
  if length led_data mod 3 =? 0 then
    BGrbCount (length led_data / 3) ::
    map (fun i => BGrbLed (i + 1) (at_ led_data (i * 3))
                    (at_ led_data (i * 3 + 1)) (at_ led_data (i * 3 + 2)))
        (range (Nat.min 5 (length led_data / 3)))
  else [].

Definition grbw_report (led_data : bytes) : list line :=
  if length led_data mod 4 =? 0 then
    BGrbwCount (length led_data / 4) ::
    map (fun i => BGrbwLed (i + 1) (at_ led_data (i * 4))
                    (at_ led_data (i * 4 + 1)) (at_ led_data (i * 4 + 2))
                    (at_ led_data (i * 4 + 3)))
        (range (Nat.min 5 (length led_data / 4)))
  else [].

(** The lines [_analyze_led_colors] prints. *)
Definition colors_report (led_data : bytes) : list line :=
  BColorsHeader :: grb_report led_data ++ grbw_report led_data.

(** The lines [_analyze_led_data_packet] prints for a frame of three
    bytes or more. *)
Definition led_frame_report (data : bytes) : list line :=
  let led_data := skipn 3 data in
  [BOffset (at_ data 1 * 256 + at_ data 2)%Z;
   BLedDataLength (length led_data)]
  ++ (if 0 <? length led_data then colors_report led_data else [])
  ++ BRawHeader :: hex_rows (firstn (Nat.min 32 (length data)) data).

(** The lines [_analyze_led_data_packet] prints. *)
Definition led_report (data : bytes) : list line :=
  if length data <? 3 then [BLedTooShort] else led_frame_report data.

(** The state once a datagram has been stamped, [lines] were printed after
    the banner, [reply] was handed to [sendto] on socket [h], and the
    sender printed its closing line [l]. *)
Definition answered (env : environment) (data : bytes) (addr : addr)
    (s : st t) (lines : list line) (h : handle) (reply : bytes) (l : line)
    : st t :=
  emit [l]
    (record (Sendto h reply addr)
       (emit (banner env data addr s ++ lines) (stamped env s))).

(** The state once a datagram has been stamped and only lines were
    printed. *)
Definition logged (env : environment) (data : bytes) (addr : addr)
    (s : st t) (lines : list line) : st t :=
  emit (banner env data addr s ++ lines) (stamped env s).

End VirtualLedBoard.

(* ====================================================================== *)
(** * packet_interceptor.py: the intercepting relay *)
(* ====================================================================== *)

Module PacketInterceptor.
Import Py.
Local Open Scope py_scope.
Local Open Scope nat_scope.

(** The attributes of the object (lines 12-17), and the two local
    variables of a running [start_interceptor]. *)
Record t := {
  target_ip : string;
  target_port : Z;
  listen_port : Z;
  running : bool;
  packet_count : nat;
  listen_sock : option handle;
  forward_sock : option handle
}.

Definition __init__ (target_ip : string) (target_port listen_port : Z) : t :=
  {| target_ip := target_ip; target_port := target_port;
     listen_port := listen_port; running := false; packet_count := 0;
     listen_sock := None; forward_sock := None |}.

Definition set_running (v : bool) (r : t) : t :=
  {| target_ip := target_ip r; target_port := target_port r;
     listen_port := listen_port r; running := v;
     packet_count := packet_count r;
     listen_sock := listen_sock r; forward_sock := forward_sock r |}.

Definition set_packet_count (v : nat) (r : t) : t :=
  {| target_ip := target_ip r; target_port := target_port r;
     listen_port := listen_port r; running := running r;
     packet_count := v;
     listen_sock := listen_sock r; forward_sock := forward_sock r |}.

Definition set_listen_sock (v : option handle) (r : t) : t :=
  {| target_ip := target_ip r; target_port := target_port r;
     listen_port := listen_port r; running := running r;
     packet_count := packet_count r;
     listen_sock := v; forward_sock := forward_sock r |}.

Definition set_forward_sock (v : option handle) (r : t) : t :=
  {| target_ip := target_ip r; target_port := target_port r;
     listen_port := listen_port r; running := running r;
     packet_count := packet_count r;
     listen_sock := listen_sock r; forward_sock := v |}.

Section Methods.
Variable env : environment.

(** Reading a local variable; unbound, it raises. *)
Definition local (v : t -> option handle) : M t handle :=
  self <- get_self ;;
  match v self with
  | Some h => ret h
  | None => raise UnboundLocalError
  end.

(** Lines 97-121. *)
Definition analyze_led_data (led_data : bytes) : M t unit :=
  let data_len := length led_data in
  (if data_len mod 3 =? 0 then
     let led_count_grb := data_len / 3 in
     print (RGrbCount led_count_grb) ;;
     for_each (range (Nat.min 5 led_count_grb))
       (fun i =>
          let offset := i * 3 in
          g <- getitem led_data offset ;;
          r <- getitem led_data (offset + 1) ;;
          b <- getitem led_data (offset + 2) ;;
          print (RGrbLed (i + 1) g r b))
   else ret tt) ;;
  (if data_len mod 4 =? 0 then
     let led_count_grbw := data_len / 4 in
     print (RGrbwCount led_count_grbw) ;;
     for_each (range (Nat.min 5 led_count_grbw))
       (fun i =>
          let offset := i * 4 in
          g <- getitem led_data offset ;;
          r <- getitem led_data (offset + 1) ;;
          b <- getitem led_data (offset + 2) ;;
          w <- getitem led_data (offset + 3) ;;
          print (RGrbwLed (i + 1) g r b w))
   else ret tt).

(** Lines 67-95. *)
Definition analyze_packet (data : bytes) (addr : addr) : M t unit :=
  timestamp <- now env ;;
  self <- get_self ;;
  print (RPacket (packet_count self) timestamp) ;;
  print (RSource addr) ;;
  print (RLength (length data)) ;;
  if 3 <=? length data then
    protocol <- getitem data 0 ;;
    d1 <- getitem data 1 ;;
    d2 <- getitem data 2 ;;
    let offset := Z.lor (Z.shiftl d1 8) d2 in
    let led_data_len := length data - 3 in
    print (RCommand protocol) ;;
    print (ROffset offset) ;;
    print (RLedDataLength led_data_len) ;;
    (if 0 <? led_data_len then analyze_led_data (skipn 3 data) else ret tt) ;;
    let shown := firstn (Nat.min 32 (length data)) data in
    print (RRawHeader (Nat.min 32 (length data))) ;;
    print (RRawHex shown) ;;
    print (RRawAscii shown)
  else
    print RTooShort.

(** Lines 123-126. *)
Definition stop : M t unit :=
  modify_self (set_running false) ;;
  print RStopping.

(** One pass through the body of the [while] of lines 39-56, given what
    [recvfrom(65536)] comes back with. *)
Definition relay_once (a : arrival) : M t unit :=
  try_except
    (match a with
     | Datagram payload src =>
         listen <- local listen_sock ;;
         o <- get_os ;;
         if sock_is_open o listen then
           let data := recvfrom 65536 payload in
           modify_self (fun r => set_packet_count (packet_count r + 1) r) ;;
           analyze_packet data src ;;
           forward <- local forward_sock ;;
           self <- get_self ;;
           sendto env forward data (target_ip self, target_port self) ;;
           print RForwarded ;;
           print RDash
         else raise OSError
     | RecvRaises e => raise e
     | StopCalled => ret tt
     end)
    (fun e => if is_timeout e then ret tt else print (RPacketError e)).

(** The loop waits in [recvfrom]; [stop()] may run on another thread
    meanwhile. *)
Fixpoint relay_wait (arrivals : list arrival) : M t loop_status :=
  match arrivals with
  | [] => ret Blocked
  | StopCalled :: rest => stop ;; relay_wait rest
  | a :: rest =>
      relay_once a ;;
      self <- get_self ;;
      if running self then relay_wait rest else ret Exited
  end.

(** Lines 26-37: the sockets are made and the flag is raised. *)
Definition open_sockets_and_run : M t unit :=
  listen <- socket_new env ;;
  modify_self (set_listen_sock (Some listen)) ;;
  self <- get_self ;;
  sock_bind env listen ("0.0.0.0"%string, listen_port self) ;;
  forward <- socket_new env ;;
  modify_self (set_forward_sock (Some forward)) ;;
  modify_self (set_running true) ;;
  print RStarted ;;
  print (RHint (listen_port self)) ;;
  print RBlank.

(** Lines 60-65. *)
Definition close_sockets : M t unit :=
  try_except
    (listen <- local listen_sock ;;
     sock_close listen ;;
     forward <- local forward_sock ;;
     sock_close forward)
    (fun _ => ret tt).

(** Lines 19-65.  The [finally] block runs once the [try] block is left,
    which a loop still waiting in [recvfrom] has not done. *)
Definition start_interceptor (arrivals : list arrival) : M t loop_status :=
  self <- get_self ;;
  print RStarting ;;
  print (RListenPort (listen_port self)) ;;
  print (RTarget (target_ip self) (target_port self)) ;;
  print RRule ;;
  status <- try_except
              (open_sockets_and_run ;;
               self <- get_self ;;
               if running self then relay_wait arrivals else ret Exited)
              (fun e => print (RStartFailed e) ;; ret Exited) ;;
  match status with
  | Blocked => ret Blocked
  | Exited => close_sockets ;; ret Exited
  end.

End Methods.

(** ** What a datagram makes the relay do *)

(** The [sendto] calls made during one pass of the loop. *)
Definition forwarded (env : environment) (a : arrival) (s : st t)
    : list (handle * bytes * addr) :=
  sendto_calls (new_effects (sys s) (sys (snd (relay_once env a s)))).

(** The lines [analyze_packet] prints. *)
Definition analysis (env : environment) (data : bytes) (addr : addr)
    (s : st t) : list line :=
  printed (new_effects (sys s) (sys (snd (analyze_packet env data addr s)))).

Definition at_ (data : bytes) (i : nat) : Z := byte_int (nth i data x00).

Definition grb_report (led_data : bytes) : list line :=
  if length led_data mod 3 =? 0 then
    RGrbCount (length led_data / 3) ::
    map (fun i => RGrbLed (i + 1) (at_ led_data (i * 3))
                    (at_ led_data (i * 3 + 1)) (at_ led_data (i * 3 + 2)))
        (range (Nat.min 5 (length led_data / 3)))
  else [].

Definition grbw_report (led_data : bytes) : list line :=
  if length led_data mod 4 =? 0 then
    RGrbwCount (length led_data / 4) ::
    map (fun i => RGrbwLed (i + 1) (at_ led_data (i * 4))
                    (at_ led_data (i * 4 + 1)) (at_ led_data (i * 4 + 2))
                    (at_ led_data (i * 4 + 3)))
        (range (Nat.min 5 (length led_data / 4)))
  else [].

(** The lines [analyze_led_data] prints. *)
Definition led_report (led_data : bytes) : list line :=
  grb_report led_data ++ grbw_report led_data.

(** The lines of 71-73. *)
Definition banner (env : environment) (data : bytes) (addr : addr)
    (s : st t) : list line :=
  [RPacket (packet_count (self s)) (clock env (trace (sys s)));
   RSource addr;
   RLength (length data)].

(** The object once line 43 has run. *)
Definition counted (s : st t) : st t :=
  {| self := set_packet_count (packet_count (self s) + 1) (self s);
     sys := sys s |}.

(** Where the relay sends to (line 49). *)
Definition target (r : t) : addr := (target_ip r, target_port r).

(** The lines [analyze_packet] prints for three bytes or more, whatever
    the first byte is. *)
Definition parsed_report (data : bytes) : list line :=
  [RCommand (at_ data 0);
   ROffset (at_ data 1 * 256 + at_ data 2)%Z;
   RLedDataLength (length data - 3)]
  ++ (if 0 <? length data - 3 then led_report (skipn 3 data) else [])
  ++ [RRawHeader (Nat.min 32 (length data));
      RRawHex (firstn (Nat.min 32 (length data)) data);
      RRawAscii (firstn (Nat.min 32 (length data)) data)].

(** Two states with the same sockets, held by the same local variables. *)
Definition same_sockets (s s' : st t) : Prop :=
  socks (sys s') = socks (sys s)
  /\ listen_sock (self s') = listen_sock (self s)
  /\ forward_sock (self s') = forward_sock (self s).

(** Every socket open in [s1] was open in [s] already, or is one that the
    [finally] block of [start_interceptor] reaches through the local
    variables of [s1]. *)
Definition held (s s1 : st t) : Prop :=
  forall h, sock_is_open (sys s1) h = true ->
    sock_is_open (sys s) h = true
    \/ listen_sock (self s1) = Some h
    \/ (listen_sock (self s1) <> None /\ forward_sock (self s1) = Some h).

(** Everything [analyze_packet] prints. *)
Definition report (env : environment) (data : bytes) (addr : addr)
    (s : st t) : list line :=
  banner env data addr s
  ++ (if 3 <=? length data then parsed_report data else [RTooShort]).

(** The state once a datagram has been counted and analysed, has been
    handed to [sendto] on socket [f], and the lines [closing] were
    printed. *)
Definition relayed (env : environment) (data : bytes) (addr : addr)
    (s : st t) (f : handle) (closing : list line) : st t :=
  emit closing
    (record (Sendto f data (target (self s)))
       (emit (report env data addr (counted s)) (counted s))).

End PacketInterceptor.

(* ====================================================================== *)
(** * Concrete runs *)
(* ====================================================================== *)

Module Examples.
Import Py.

(** An outside world in which no call raises. *)
Definition quiet : environment :=
  {| faults := fun _ _ => None;
     clock := fun tr => Z.of_nat (length tr);
     hostname := "workstation"%string;
     host_ip := fun _ => "192.168.31.10"%string;
     aton := fun _ => [xc0; xa8; x1f; x0a] |}.

(** An outside world without a usable resolver or zeroconf: every call
    the advertisement needs raises. *)
Definition no_discovery : environment :=
  {| faults := fun _ e =>
       match e with
       | GetHostName | GetHostByName _ | InetAton _ | ServiceInfoNew _
       | ZcNew _ | ZcRegister _ _ | ZcUnregister _ _ | ZcClose _ =>
           Some OSError
       | _ => None
       end;
     clock := fun tr => Z.of_nat (length tr);
     hostname := "workstation"%string;
     host_ip := fun _ => ""%string;
     aton := fun _ => [] |}.

Definition client : addr := ("127.0.0.1"%string, 50000%Z).

(** [VirtualLedBoard(device_name="Virtual LED Board Debug")], before and
    after [start()]. *)
Definition fresh_board (MDNS_AVAILABLE : bool) : st VirtualLedBoard.t :=
  {| self := VirtualLedBoard.__init__ MDNS_AVAILABLE "0.0.0.0"%string 8888%Z
               "Virtual LED Board Debug"%string;
     sys := boot |}.

Definition started_board : st VirtualLedBoard.t :=
  snd (VirtualLedBoard.start quiet (fresh_board true)).

(** The record [started_board] has published. *)
Definition advertised : ServiceInfo :=
  {| type_ := "_ambient-light._udp.local."%string;
     name := "Virtual-LED-Board-Debug._ambient-light._udp.local."%string;
     addresses := [[xc0; xa8; x1f; x0a]];
     sport := 8888%Z;
     properties := VirtualLedBoard.txt_properties |}.

(** [PacketInterceptor()], before [start_interceptor()] and while its loop
    waits for the first datagram. *)
Definition fresh_relay : st PacketInterceptor.t :=
  {| self := PacketInterceptor.__init__ "192.168.31.182"%string 23042%Z 8889%Z;
     sys := boot |}.

Definition waiting_relay : st PacketInterceptor.t :=
  snd (PacketInterceptor.start_interceptor quiet [] fresh_relay).

End Examples.

(* ====================================================================== *)
(** * Facts about the run-time *)
(* ====================================================================== *)

Module PyFacts.
Import Py.
Local Open Scope py_scope.

Lemma byte_int_range (b : byte) : (0 <= byte_int b <= 255)%Z.
Proof.
  unfold byte_int. pose proof (Byte.to_N_bounded b). lia.
Qed.

Lemma shifted_disjoint (hi lo : Z) :
  (0 <= lo <= 255)%Z -> Z.land (hi * 256) lo = 0%Z.
Proof.
  intros Hlo.
  apply Z.bits_inj'; intros n Hn.
  rewrite Z.land_spec, Z.bits_0.
  change 256%Z with (2 ^ 8)%Z.
  destruct (Z.ltb_spec n 8).
  - rewrite Z.mul_pow2_bits_low by lia. reflexivity.
  - rewrite (Z.bits_above_log2 lo n), andb_false_r; [reflexivity|lia|].
    destruct (Z.eq_dec lo 0) as [->|]; [simpl; lia|].
    apply Z.log2_lt_pow2; [lia|].
    apply Z.lt_le_trans with (2 ^ 8)%Z; [simpl; lia|].
    apply Z.pow_le_mono_r; lia.
Qed.

(** [(hi << 8) | lo] on two byte values is [hi * 256 + lo]. *)
Lemma shift_or_bytes (hi lo : Z) :
  (0 <= hi <= 255)%Z -> (0 <= lo <= 255)%Z ->
  Z.lor (Z.shiftl hi 8) lo = (hi * 256 + lo)%Z.
Proof.
  intros Hhi Hlo.
  rewrite Z.shiftl_mul_pow2 by lia.
  change (2 ^ 8)%Z with 256%Z.
  rewrite <- Z.lxor_lor by (apply shifted_disjoint; assumption).
  symmetry. apply Z.add_nocarry_lxor, shifted_disjoint; assumption.
Qed.

Lemma offset_of_bytes (b1 b2 : byte) :
  Z.lor (Z.shiftl (byte_int b1) 8) (byte_int b2)
  = (byte_int b1 * 256 + byte_int b2)%Z
  /\ (0 <= byte_int b1 * 256 + byte_int b2 <= 65535)%Z.
Proof.
  pose proof (byte_int_range b1). pose proof (byte_int_range b2).
  split; [apply shift_or_bytes; assumption | lia].
Qed.

(** ** Traces *)

Lemma new_effects_app (o o' : os) (l : list effect) :
  trace o' = trace o ++ l -> new_effects o o' = l.
Proof.
  intros H. unfold new_effects. rewrite H.
  rewrite skipn_app, skipn_all, Nat.sub_diag. reflexivity.
Qed.

Lemma sendto_calls_app (a b : list effect) :
  sendto_calls (a ++ b) = sendto_calls a ++ sendto_calls b.
Proof.
  induction a as [|e a IH]; [reflexivity|].
  destruct e; simpl; rewrite IH; reflexivity.
Qed.

Lemma printed_app (a b : list effect) :
  printed (a ++ b) = printed a ++ printed b.
Proof.
  induction a as [|e a IH]; [reflexivity|].
  destruct e; simpl; rewrite IH; reflexivity.
Qed.

Lemma sendto_calls_stdout (ls : list line) :
  sendto_calls (map Stdout ls) = [].
Proof. induction ls; simpl; auto. Qed.

Lemma printed_stdout (ls : list line) : printed (map Stdout ls) = ls.
Proof. induction ls; simpl; congruence. Qed.

Lemma pick_app {A : Type} (f : line -> option A) (a b : list line) :
  pick f (a ++ b) = pick f a ++ pick f b.
Proof. apply flat_map_app. Qed.

Lemma pick_map_none {A B : Type} (f : line -> option A) (g : B -> line)
    (xs : list B) :
  (forall x, f (g x) = None) -> pick f (map g xs) = [].
Proof.
  intros H. induction xs as [|x xs IH]; [reflexivity|].
  unfold pick in *. simpl. rewrite H, IH. reflexivity.
Qed.

Lemma pick_cons {A : Type} (f : line -> option A) (l : line) (ls : list line) :
  pick f (l :: ls)
  = match f l with Some a => a :: pick f ls | None => pick f ls end.
Proof. unfold pick. simpl. destruct (f l); reflexivity. Qed.

(** ** Printing *)

Section Printing.
Context {Self : Type}.
Implicit Types (s : st Self) (c k : M Self unit).

Lemma emit_nil s : emit [] s = s.
Proof.
  destruct s as [b [tr so zc pu]]. unfold emit, emits; simpl.
  rewrite app_nil_r. reflexivity.
Qed.

Lemma emit_emit (a b : list line) s : emit b (emit a s) = emit (a ++ b) s.
Proof.
  unfold emit, emits; simpl. rewrite map_app, app_assoc. reflexivity.
Qed.

Lemma says_ret : says (@ret Self unit tt) [].
Proof. intros s. rewrite emit_nil. reflexivity. Qed.

Lemma says_print (l : line) : says (@print Self l) [l].
Proof. intros s. reflexivity. Qed.

Lemma says_seq c k (a b : list line) :
  says c a -> says k b -> says (c ;; k) (a ++ b).
Proof.
  intros Hc Hk s. unfold bind. rewrite Hc, Hk, emit_emit. reflexivity.
Qed.

Lemma bind_says {A : Type} c (k' : unit -> M Self A) (ls : list line) s :
  says c ls -> bind c k' s = k' tt (emit ls s).
Proof. intros H. unfold bind. rewrite H. reflexivity. Qed.

Lemma says_print_then (l : line) k (ls : list line) :
  says k ls -> says (print l ;; k) (l :: ls).
Proof. intros H. apply (says_seq (says_print l) H). Qed.

Lemma says_eq c (a b : list line) : says c a -> a = b -> says c b.
Proof. intros H <-. exact H. Qed.

Lemma says_for_each {A : Type} (xs : list A) (body : A -> M Self unit)
    (f : A -> line) :
  (forall x, In x xs -> says (body x) [f x]) ->
  says (for_each xs body) (map f xs).
Proof.
  induction xs as [|x xs IH]; intros H; simpl.
  - apply says_ret.
  - change (f x :: map f xs) with ([f x] ++ map f xs).
    apply says_seq.
    + apply H. left. reflexivity.
    + apply IH. intros y Hy. apply H. right. exact Hy.
Qed.

(** Reading the bytes of a long enough [bytes] object does not raise. *)
Lemma getitem_ok (data : bytes) (i : nat) (k : Z -> M Self unit) s :
  i < length data ->
  (v <- getitem data i ;; k v) s = k (byte_int (nth i data x00)) s.
Proof.
  intros Hi. unfold getitem, bind.
  rewrite (nth_error_nth' data x00 Hi). reflexivity.
Qed.

Lemma slice3 (data : bytes) (a : nat) :
  a + 3 <= length data ->
  slice data a (a + 3)
  = [nth a data x00; nth (a + 1) data x00; nth (a + 2) data x00].
Proof.
  unfold slice. replace (a + 3 - a) with 3 by lia.
  revert data. induction a as [|a IH]; intros data H.
  - destruct data as [|x [|y [|z r]]]; simpl in H; try lia. reflexivity.
  - destruct data as [|x r]; simpl in H; [lia|].
    simpl. apply IH. lia.
Qed.

Lemma slice4 (data : bytes) (a : nat) :
  a + 4 <= length data ->
  slice data a (a + 4)
  = [nth a data x00; nth (a + 1) data x00; nth (a + 2) data x00;
     nth (a + 3) data x00].
Proof.
  unfold slice. replace (a + 4 - a) with 4 by lia.
  revert data. induction a as [|a IH]; intros data H.
  - destruct data as [|x [|y [|z [|w r]]]]; simpl in H; try lia. reflexivity.
  - destruct data as [|x r]; simpl in H; [lia|].
    simpl. apply IH. lia.
Qed.

End Printing.

(** ** Updating a list by index *)

Lemma nth_error_set_nth_same {A : Type} (l : list A) (n : nat) (x : A) :
  n < length l -> nth_error (set_nth n x l) n = Some x.
Proof.
  revert n. induction l as [|y l IH]; intros [|n] H; simpl in *; try lia.
  - reflexivity.
  - apply IH. lia.
Qed.

Lemma nth_error_set_nth_other {A : Type} (l : list A) (n m : nat) (x : A) :
  n <> m -> nth_error (set_nth n x l) m = nth_error l m.
Proof.
  revert n m.
  induction l as [|y l IH]; intros [|n] [|m] H; simpl; try reflexivity.
  - lia.
  - apply IH. lia.
Qed.

Lemma length_set_nth {A : Type} (l : list A) (n : nat) (x : A) :
  length (set_nth n x l) = length l.
Proof.
  revert n. induction l as [|y l IH]; intros [|n]; simpl; auto.
Qed.

(** Closing a socket closes that one and leaves the others as they are. *)
Lemma open_after_close (l : list sock_state) (h h' : handle) :
  is_open (set_nth h SockClosed l) h' = is_open l h' && negb (h' =? h).
Proof.
  unfold is_open.
  destruct (Nat.eqb_spec h' h) as [->|Hne].
  - rewrite andb_false_r.
    destruct (Nat.lt_ge_cases h (length l)) as [Hlt|Hge].
    + rewrite nth_error_set_nth_same by exact Hlt. reflexivity.
    + assert (H : nth_error (set_nth h SockClosed l) h = None).
      { apply nth_error_None. rewrite length_set_nth. exact Hge. }
      rewrite H. reflexivity.
  - rewrite nth_error_set_nth_other by congruence.
    rewrite andb_true_r. reflexivity.
Qed.

(** A socket that is open after a new one was made, or after one was
    replaced, was open before or is that one. *)
Lemma is_open_new (l : list sock_state) (x : sock_state) (h : handle) :
  is_open (l ++ [x]) h = true -> is_open l h = true \/ h = length l.
Proof.
  unfold is_open. intros H.
  destruct (Nat.lt_ge_cases h (length l)) as [Hlt|Hge].
  - left. rewrite nth_error_app1 in H by exact Hlt. exact H.
  - destruct (Nat.eq_dec h (length l)) as [E|Hne]; [right; exact E|].
    assert (Hn : nth_error (l ++ [x]) h = None).
    { apply nth_error_None. rewrite length_app. simpl. lia. }
    rewrite Hn in H. discriminate.
Qed.

Lemma is_open_set (l : list sock_state) (n : nat) (x : sock_state)
    (h : handle) :
  is_open (set_nth n x l) h = true -> is_open l h = true \/ h = n.
Proof.
  unfold is_open. intros H.
  destruct (Nat.eq_dec n h) as [E|Hne]; [right; congruence|].
  left. rewrite nth_error_set_nth_other in H by exact Hne. exact H.
Qed.

Lemma not_published_after_unregister (info : ServiceInfo)
    (l : list ServiceInfo) (i : ServiceInfo) :
  In i (filter (fun i => negb (String.eqb (name i) (name info))) l) ->
  name i <> name info.
Proof.
  rewrite filter_In. intros [_ H] E. rewrite E, String.eqb_refl in H.
  discriminate.
Qed.

(** ** What [recvfrom] hands over *)

Lemma recvfrom_length (bufsize : Z) (d : bytes) :
  length (recvfrom bufsize d) = Nat.min (Z.to_nat bufsize) (length d).
Proof. apply length_firstn. Qed.

Lemma recvfrom_whole (bufsize : Z) (d : bytes) :
  length d <= Z.to_nat bufsize -> recvfrom bufsize d = d.
Proof. intros H. apply firstn_all2. exact H. Qed.

Lemma recvfrom_twice (bufsize : Z) (d : bytes) :
  recvfrom bufsize (recvfrom bufsize d) = recvfrom bufsize d.
Proof.
  unfold recvfrom. rewrite firstn_firstn, Nat.min_id. reflexivity.
Qed.

Lemma recvfrom_cut (bufsize : Z) (d : bytes) :
  Z.to_nat bufsize < length d ->
  recvfrom bufsize d <> d /\ length (recvfrom bufsize d) = Z.to_nat bufsize.
Proof.
  intros H. pose proof (recvfrom_length bufsize d) as Hl.
  split; [intros E; rewrite E in Hl|]; lia.
Qed.

(** ** Running a computation step by step *)

Ltac run :=
  cbv beta iota zeta delta
    [try_except bind get_self get_os ret raise modify_self modify_os print
     call gethostname gethostbyname inet_aton zeroconf_new register_service
     unregister_service zeroconf_close thread_start socket_new setsockopt
     sock_bind sock_close sendto now];
  cbn [self sys].

Ltac fault_cases :=
  repeat match goal with
         | |- context [faults ?env ?tr ?e] =>
             let E := fresh "E" in
             destruct (faults env tr e) eqn:E; run
         end.

Ltac proj :=
  cbn [self sys socks trace zeroconfs published log with_socks with_zeroconfs
       with_published emit emits record].

(** Below the count of whole groups, a group lies inside the data. *)
Lemma group_in_range (n w i : nat) :
  0 < w -> n mod w = 0 -> i < Nat.min 5 (n / w) -> i * w + w <= n.
Proof.
  intros Hw Hm Hi.
  assert (Hn : n = w * (n / w)).
  { rewrite (Nat.div_mod_eq n w) at 1. rewrite Hm. lia. }
  assert (Hi' : i + 1 <= n / w) by lia.
  assert (i * w + w <= w * (n / w)) by nia.
  lia.
Qed.

End PyFacts.

(* ====================================================================== *)
(** * The device responder *)
(* ====================================================================== *)

Module BoardFacts.
Import Py PyFacts VirtualLedBoard.
Local Open Scope py_scope.
Local Open Scope nat_scope.

(** ** The analysis only prints *)

Lemma says_print_hex_dump (data : bytes) :
  says (_print_hex_dump data) (hex_rows data).
Proof.
  unfold _print_hex_dump, hex_rows.
  apply says_for_each. intros i _. apply says_print.
Qed.

Lemma says_grb_loop (led_data : bytes) :
  length led_data mod 3 = 0 ->
  says (Self := t) (for_each (range (Nat.min 5 (length led_data / 3)))
          (fun i =>
             let start_idx := i * 3 in
             grb <- unpack3 (slice led_data start_idx (start_idx + 3)) ;;
             let '(g, r, b) := grb in
             print (BGrbLed (i + 1) g r b)))
       (map (fun i => BGrbLed (i + 1) (at_ led_data (i * 3))
                        (at_ led_data (i * 3 + 1)) (at_ led_data (i * 3 + 2)))
            (range (Nat.min 5 (length led_data / 3)))).
Proof.
  intros Hm. apply says_for_each. intros i Hi s.
  apply in_seq in Hi.
  cbv zeta. rewrite slice3 by (apply group_in_range; lia).
  reflexivity.
Qed.

Lemma says_grbw_loop (led_data : bytes) :
  length led_data mod 4 = 0 ->
  says (Self := t) (for_each (range (Nat.min 5 (length led_data / 4)))
          (fun i =>
             let start_idx := i * 4 in
             grbw <- unpack4 (slice led_data start_idx (start_idx + 4)) ;;
             let '(g, r, b, w) := grbw in
             print (BGrbwLed (i + 1) g r b w)))
       (map (fun i => BGrbwLed (i + 1) (at_ led_data (i * 4))
                        (at_ led_data (i * 4 + 1)) (at_ led_data (i * 4 + 2))
                        (at_ led_data (i * 4 + 3)))
            (range (Nat.min 5 (length led_data / 4)))).
Proof.
  intros Hm. apply says_for_each. intros i Hi s.
  apply in_seq in Hi.
  cbv zeta. rewrite slice4 by (apply group_in_range; lia).
  reflexivity.
Qed.

Lemma says_analyze_led_colors (led_data : bytes) (offset : Z) :
  says (_analyze_led_colors led_data offset) (colors_report led_data).
Proof.
  unfold _analyze_led_colors, colors_report.
  apply says_print_then.
  apply says_seq.
  - unfold grb_report.
    destruct (Nat.eqb_spec (length led_data mod 3) 0) as [Hm|_].
    + apply says_print_then, says_grb_loop, Hm.
    + apply says_ret.
  - unfold grbw_report.
    destruct (Nat.eqb_spec (length led_data mod 4) 0) as [Hm|_].
    + apply says_print_then, says_grbw_loop, Hm.
    + apply says_ret.
Qed.

Lemma says_analyze_led_data_packet (data : bytes) :
  says (_analyze_led_data_packet data) (led_report data).
Proof.
  unfold _analyze_led_data_packet, led_report.
  destruct (Nat.ltb_spec (length data) 3) as [|H]; [apply says_print|].
  intros s.
  rewrite getitem_ok by lia.
  rewrite getitem_ok by lia.
  destruct data as [|b0 [|b1 [|b2 cb]]]; simpl in H; try lia.
  cbn [nth].
  destruct (offset_of_bytes b1 b2) as [-> _].
  revert s. unfold led_frame_report, at_. cbn [skipn nth app].
  do 2 apply says_print_then.
  apply says_seq.
  - destruct (0 <? length cb); [apply says_analyze_led_colors | apply says_ret].
  - apply says_print_then, says_print_hex_dump.
Qed.

(** ** Sending a reply *)

Section Handling.
Variable env : environment.

Lemma sender_with_socket (payload : bytes) (addr : addr) (ok : line)
    (failed : exn -> line) (s : st t) (h : handle) :
  socket (self s) = Some h ->
  exists l,
    try_except
      (sock <- self_socket ;; sendto env sock payload addr ;; print ok)
      (fun e => print (failed e)) s
    = (Done tt, emit [l] (record (Sendto h payload addr) s))
    /\ (l = ok \/ exists e, l = failed e).
Proof.
  intros Hs.
  cbv beta iota zeta delta
    [try_except bind self_socket get_self ret raise sendto get_os call].
  rewrite Hs.
  destruct (faults env (trace (sys s)) (Sendto h payload addr)) as [e|].
  - exists (failed e). split; [reflexivity | right; eauto].
  - destruct (sock_is_open (sys s) h).
    + exists ok. split; [reflexivity | left; reflexivity].
    + exists (failed OSError). split; [reflexivity | right; eauto].
Qed.

Lemma sender_without_socket (payload : bytes) (addr : addr) (ok : line)
    (failed : exn -> line) (s : st t) :
  socket (self s) = None ->
  try_except
    (sock <- self_socket ;; sendto env sock payload addr ;; print ok)
    (fun e => print (failed e)) s
  = (Done tt, emit [failed AttributeError] s).
Proof.
  intros Hs.
  cbv beta iota zeta delta [try_except bind self_socket get_self ret raise].
  rewrite Hs. reflexivity.
Qed.

(** ** Handling one datagram *)

Lemma header_state (data : bytes) (addr : addr) (s : st t) :
  {| self := set_last_packet_time (Some (clock env (trace (sys s))))
               (set_packet_count (packet_count (self s) + 1) (self s));
     sys := log (Stdout (BLength (length data)))
              (log (Stdout (BSource addr))
                 (log (Stdout
                         (BPacket (packet_count (self s) + 1)
                            (clock env (trace (sys s)))
                            match last_packet_time (self s) with
                            | Some last =>
                                Some (clock env (trace (sys s)) - last)%Z
                            | None => None
                            end))
                    (sys s))) |}
  = emit (banner env data addr s) (stamped env s).
Proof.
  unfold emit, emits, stamped, banner, log. cbn.
  rewrite <- !app_assoc. reflexivity.
Qed.

Lemma process_empty (addr : addr) (s : st t) :
  _process_packet env [] addr s
  = (Done tt, logged env [] addr s [BEmptyPacket]).
Proof.
  unfold logged. rewrite <- emit_emit, <- header_state. reflexivity.
Qed.

(** After the banner and the command line, the command decides. *)
Lemma process_nonempty (b : byte) (rest : bytes) (addr : addr) (s : st t) :
  _process_packet env (b :: rest) addr s
  = (if (byte_int b =? 1)%Z then
       print BHeartbeatCmd ;; _send_heartbeat_response env addr
     else if (byte_int b =? 2)%Z then
       print BLedDataCmd ;;
       _analyze_led_data_packet (b :: rest) ;;
       _send_ack_response env addr
     else if (byte_int b =? 3)%Z then
       print BConfigCmd ;; _send_ack_response env addr
     else if (byte_int b =? 4)%Z then
       print BConnectionCmd ;; _send_connection_response env addr
     else
       print (BUnknownCmd (byte_int b)) ;; _print_hex_dump (b :: rest))
      (logged env (b :: rest) addr s [BCommand (byte_int b)]).
Proof.
  unfold logged. rewrite <- emit_emit, <- header_state. reflexivity.
Qed.

Ltac command_is H :=
  rewrite process_nonempty, H; cbn [Z.eqb Pos.eqb];
  unfold logged;
  repeat (erewrite bind_says by first [apply says_print
                                      | apply says_analyze_led_data_packet
                                      | apply says_print_hex_dump];
          rewrite emit_emit, <- app_assoc; cbn [app]).

Ltac answer_with Hs :=
  match goal with
  | |- exists l, ?send _ _ ?st = _ /\ _ =>
      let H := fresh in
      let Hl := fresh in
      let l := fresh "l" in
      unfold send;
      edestruct (@sender_with_socket) as [l [H Hl]];
      [ | exists l; rewrite H; split; [reflexivity | exact Hl] ]; exact Hs
  end.

Lemma process_heartbeat (b : byte) (rest : bytes) (addr : addr) (s : st t)
    (h : handle) :
  byte_int b = 1%Z -> socket (self s) = Some h ->
  exists l, _process_packet env (b :: rest) addr s
    = (Done tt, answered env (b :: rest) addr s
                  [BCommand 1; BHeartbeatCmd] h [x01] l)
    /\ (l = BHeartbeatSent \/ exists e, l = BHeartbeatFailed e).
Proof.
  intros Hb Hs. command_is Hb. unfold answered. answer_with Hs.
Qed.

Lemma process_led_data (b : byte) (rest : bytes) (addr : addr) (s : st t)
    (h : handle) :
  byte_int b = 2%Z -> socket (self s) = Some h ->
  exists l, _process_packet env (b :: rest) addr s
    = (Done tt, answered env (b :: rest) addr s
                  ([BCommand 2; BLedDataCmd] ++ led_report (b :: rest))
                  h [x00] l)
    /\ (l = BAckSent \/ exists e, l = BAckFailed e).
Proof.
  intros Hb Hs. command_is Hb. unfold answered. answer_with Hs.
Qed.

Lemma process_config (b : byte) (rest : bytes) (addr : addr) (s : st t)
    (h : handle) :
  byte_int b = 3%Z -> socket (self s) = Some h ->
  exists l, _process_packet env (b :: rest) addr s
    = (Done tt, answered env (b :: rest) addr s
                  [BCommand 3; BConfigCmd] h [x00] l)
    /\ (l = BAckSent \/ exists e, l = BAckFailed e).
Proof.
  intros Hb Hs. command_is Hb. unfold answered. answer_with Hs.
Qed.

Lemma process_connection (b : byte) (rest : bytes) (addr : addr) (s : st t)
    (h : handle) :
  byte_int b = 4%Z -> socket (self s) = Some h ->
  exists l, _process_packet env (b :: rest) addr s
    = (Done tt, answered env (b :: rest) addr s
                  [BCommand 4; BConnectionCmd] h [x04; x01] l)
    /\ (l = BConnectionSent \/ exists e, l = BConnectionFailed e).
Proof.
  intros Hb Hs. command_is Hb. unfold answered. answer_with Hs.
Qed.

Lemma process_unknown (b : byte) (rest : bytes) (addr : addr) (s : st t) :
  ~ In (byte_int b) [1; 2; 3; 4]%Z ->
  _process_packet env (b :: rest) addr s
  = (Done tt, logged env (b :: rest) addr s
                ([BCommand (byte_int b); BUnknownCmd (byte_int b)]
                 ++ hex_rows (b :: rest))).
Proof.
  intros Hb. rewrite process_nonempty.
  repeat match goal with
         | |- context [(byte_int b =? ?n)%Z] =>
             destruct (Z.eqb_spec (byte_int b) n) as [E|_];
             [exfalso; apply Hb; rewrite E; simpl; tauto|]
         end.
  unfold logged.
  repeat (erewrite bind_says by first [apply says_print
                                      | apply says_print_hex_dump];
          rewrite emit_emit, <- app_assoc; cbn [app]).
  rewrite (says_print_hex_dump (b :: rest)), emit_emit, <- app_assoc.
  reflexivity.
Qed.

(** Without a socket the sender's attribute access raises, which the
    sender itself catches: lines are printed and nothing is sent. *)
Lemma process_without_socket (data : bytes) (addr : addr) (s : st t) :
  socket (self s) = None ->
  exists lines,
    _process_packet env data addr s = (Done tt, logged env data addr s lines).
Proof.
  intros Hs. destruct data as [|b rest].
  - eexists. apply process_empty.
  - destruct (Z.eq_dec (byte_int b) 1) as [H1|H1];
      [|destruct (Z.eq_dec (byte_int b) 2) as [H2|H2];
        [|destruct (Z.eq_dec (byte_int b) 3) as [H3|H3];
          [|destruct (Z.eq_dec (byte_int b) 4) as [H4|H4]]]].
    + command_is H1. unfold _send_heartbeat_response.
      rewrite sender_without_socket by exact Hs.
      rewrite emit_emit, <- app_assoc. eexists. reflexivity.
    + command_is H2. unfold _send_ack_response.
      rewrite sender_without_socket by exact Hs.
      rewrite emit_emit, <- app_assoc. eexists. reflexivity.
    + command_is H3. unfold _send_ack_response.
      rewrite sender_without_socket by exact Hs.
      rewrite emit_emit, <- app_assoc. eexists. reflexivity.
    + command_is H4. unfold _send_connection_response.
      rewrite sender_without_socket by exact Hs.
      rewrite emit_emit, <- app_assoc. eexists. reflexivity.
    + eexists. apply process_unknown. simpl. intuition congruence.
Qed.

(** ** What can be observed of a handled datagram *)

Lemma observe_answered (data : bytes) (addr : addr) (s : st t)
    (lines : list line) (h : handle) (reply : bytes) (l : line) :
  _process_packet env data addr s
  = (Done tt, answered env data addr s lines h reply l) ->
  replies env data addr s = [(h, reply, addr)]
  /\ diagnostics env data addr s = banner env data addr s ++ lines ++ [l].
Proof.
  intros H. unfold replies, diagnostics, after. rewrite H. cbn [snd].
  rewrite (@new_effects_app (sys s) _
             (map Stdout (banner env data addr s ++ lines)
              ++ [Sendto h reply addr; Stdout l])).
  - rewrite sendto_calls_app, printed_app, sendto_calls_stdout, printed_stdout.
    rewrite <- app_assoc. split; reflexivity.
  - cbn. rewrite <- !app_assoc. reflexivity.
Qed.

Lemma observe_logged (data : bytes) (addr : addr) (s : st t)
    (lines : list line) :
  _process_packet env data addr s = (Done tt, logged env data addr s lines) ->
  replies env data addr s = []
  /\ diagnostics env data addr s = banner env data addr s ++ lines.
Proof.
  intros H. unfold replies, diagnostics, after. rewrite H. cbn [snd].
  rewrite (@new_effects_app (sys s) _
             (map Stdout (banner env data addr s ++ lines))).
  - rewrite sendto_calls_stdout, printed_stdout. split; reflexivity.
  - reflexivity.
Qed.

(** What an LED-data frame prints, with or without a socket to answer on. *)
Lemma led_data_diagnostics (b : byte) (rest : bytes) (addr : addr) (s : st t) :
  byte_int b = 2%Z ->
  exists l,
    diagnostics env (b :: rest) addr s
    = banner env (b :: rest) addr s
      ++ ([BCommand 2; BLedDataCmd] ++ led_report (b :: rest)) ++ [l]
    /\ (l = BAckSent \/ exists e, l = BAckFailed e).
Proof.
  intros Hb. destruct (socket (self s)) as [h|] eqn:Hs.
  - destruct (process_led_data b rest addr s Hb Hs) as [l [H Hl]].
    exists l. split; [apply (observe_answered H) | exact Hl].
  - exists (BAckFailed AttributeError). split; [|right; eauto].
    apply (@observe_logged (b :: rest) addr s
             (([BCommand 2; BLedDataCmd] ++ led_report (b :: rest))
              ++ [BAckFailed AttributeError])).
    command_is Hb. unfold _send_ack_response.
    rewrite sender_without_socket by exact Hs.
    rewrite emit_emit, <- !app_assoc. reflexivity.
Qed.

End Handling.

(** ** Where a count, an offset or a length can come from *)

Section Picking.
Context {A : Type} (f : line -> option A).

Lemma pick_hex_rows (d : bytes) :
  (forall i chunk, f (BHexRow i chunk) = None) -> pick f (hex_rows d) = [].
Proof. intros H. apply pick_map_none. intros i. apply H. Qed.

Lemma pick_grb_report (d : bytes) :
  (forall i g r b, f (BGrbLed i g r b) = None) ->
  pick f (grb_report d)
  = if length d mod 3 =? 0 then pick f [BGrbCount (length d / 3)] else [].
Proof.
  intros H. unfold grb_report. destruct (length d mod 3 =? 0); [|reflexivity].
  change (BGrbCount (length d / 3) :: ?l)
    with ([BGrbCount (length d / 3)] ++ l).
  rewrite pick_app, pick_map_none, app_nil_r by (intros i; apply H).
  reflexivity.
Qed.

Lemma pick_grbw_report (d : bytes) :
  (forall i g r b w, f (BGrbwLed i g r b w) = None) ->
  pick f (grbw_report d)
  = if length d mod 4 =? 0 then pick f [BGrbwCount (length d / 4)] else [].
Proof.
  intros H. unfold grbw_report. destruct (length d mod 4 =? 0); [|reflexivity].
  change (BGrbwCount (length d / 4) :: ?l)
    with ([BGrbwCount (length d / 4)] ++ l).
  rewrite pick_app, pick_map_none, app_nil_r by (intros i; apply H).
  reflexivity.
Qed.

End Picking.

(** ** Starting, stopping and receiving *)

Ltac board_proj :=
  proj;
  cbn [set_running set_socket set_zeroconf set_service_info
       set_packet_count set_last_packet_time socket running zeroconf
       service_info host port device_name mdns_enabled packet_count
       last_packet_time].

Ltac board_proj_in H :=
  cbn [self sys socks trace zeroconfs published log with_socks with_zeroconfs
       with_published emit emits record
       set_running set_socket set_zeroconf set_service_info
       set_packet_count set_last_packet_time socket running zeroconf
       service_info host port device_name mdns_enabled packet_count
       last_packet_time] in H.

Section Running.
Variable env : environment.

(** Whatever the resolver and zeroconf do, publishing returns, and it
    touches neither the sockets nor the socket and the flag of the
    object. *)
Lemma mdns_is_harmless (s : st t) :
  exists b s',
    _start_mdns_service env s = (Done b, s')
    /\ socks (sys s') = socks (sys s)
    /\ socket (self s') = socket (self s)
    /\ running (self s') = running (self s).
Proof.
  unfold _start_mdns_service, _get_local_ip. run. fault_cases.
  all: repeat match goal with
              | |- context [if negb (truthy ?x) then _ else _] =>
                  destruct (truthy x); cbn [negb]; run; fault_cases
              end.
  all: do 2 eexists; split; [reflexivity|].
  all: board_proj; repeat split.
Qed.

(** [stop()] returns whatever zeroconf does.  It lowers the flag, closes
    the socket of the object and no other, and starts by asking zeroconf
    to unregister the record when there is one; when that call does not
    raise, no record of that name stays published. *)
Lemma board_stop_spec (s : st t) :
  exists s',
    stop env s = (Done tt, s')
    /\ self s' = set_running false (self s)
    /\ (forall h, sock_is_open (sys s') h
                  = sock_is_open (sys s) h
                    && negb (match socket (self s) with
                             | Some mine => h =? mine
                             | None => false
                             end))
    /\ (forall z info,
          zeroconf (self s) = Some z -> service_info (self s) = Some info ->
          hd_error (new_effects (sys s) (sys s')) = Some (ZcUnregister z info)
          /\ (faults env (trace (sys s)) (ZcUnregister z info) = None ->
              forall i, In i (published (sys s')) -> name i <> name info)).
Proof.
  unfold stop. run. board_proj.
  destruct (zeroconf (self s)) as [z|], (service_info (self s)) as [info|];
    run; fault_cases; destruct (socket (self s)) as [h|]; run.
  all: eexists; split; [reflexivity|]; board_proj.
  all: split; [reflexivity|].
  all: split; [intros h'; unfold sock_is_open; board_proj;
               rewrite ?open_after_close, ?andb_true_r; reflexivity|].
  all: intros z' info' Hz Hi; try discriminate.
  all: inversion Hz; inversion Hi; subst z' info'.
  all: split; [erewrite new_effects_app
                 by (board_proj; rewrite <- ?app_assoc; reflexivity);
               reflexivity|].
  all: intros Hok i; try congruence.
  all: apply not_published_after_unregister.
Qed.

(** Every handled datagram prints the banner first, and handling it only
    moves the counter and the last-arrival time of the object. *)
Lemma process_packet_outcome (data : bytes) (addr : addr) (s : st t) :
  exists rest,
    _process_packet env data addr s = (Done tt, after env data addr s)
    /\ diagnostics env data addr s = banner env data addr s ++ rest
    /\ self (after env data addr s) = self (stamped env s).
Proof.
  assert (Hlog : forall lines,
             _process_packet env data addr s
             = (Done tt, logged env data addr s lines) ->
             exists rest,
               _process_packet env data addr s
               = (Done tt, after env data addr s)
               /\ diagnostics env data addr s = banner env data addr s ++ rest
               /\ self (after env data addr s) = self (stamped env s)).
  { intros lines H. exists lines.
    destruct (observe_logged H) as [_ Hp].
    unfold after. rewrite H. auto. }
  assert (Hans : forall lines h reply l,
             _process_packet env data addr s
             = (Done tt, answered env data addr s lines h reply l) ->
             exists rest,
               _process_packet env data addr s
               = (Done tt, after env data addr s)
               /\ diagnostics env data addr s = banner env data addr s ++ rest
               /\ self (after env data addr s) = self (stamped env s)).
  { intros lines h reply l H. exists (lines ++ [l]).
    destruct (observe_answered H) as [_ Hp].
    unfold after. rewrite H. auto. }
  destruct (socket (self s)) as [h|] eqn:Hs.
  - destruct data as [|b rest].
    + apply (Hlog _ (process_empty env addr s)).
    + destruct (Z.eq_dec (byte_int b) 1) as [H1|H1];
        [|destruct (Z.eq_dec (byte_int b) 2) as [H2|H2];
          [|destruct (Z.eq_dec (byte_int b) 3) as [H3|H3];
            [|destruct (Z.eq_dec (byte_int b) 4) as [H4|H4]]]].
      * destruct (process_heartbeat env b rest addr s H1 Hs) as [l [H _]].
        apply (Hans _ _ _ _ H).
      * destruct (process_led_data env b rest addr s H2 Hs) as [l [H _]].
        apply (Hans _ _ _ _ H).
      * destruct (process_config env b rest addr s H3 Hs) as [l [H _]].
        apply (Hans _ _ _ _ H).
      * destruct (process_connection env b rest addr s H4 Hs) as [l [H _]].
        apply (Hans _ _ _ _ H).
      * apply (Hlog _ (@process_unknown env b rest addr s
                         ltac:(simpl; intuition congruence))).
  - destruct (process_without_socket env data addr s Hs) as [lines H].
    apply (Hlog _ H).
Qed.

(** Only what [recvfrom(1024)] hands over of a datagram is looked at. *)
Lemma receive_once_cut (d : bytes) (src : addr) (s : st t) :
  receive_once env (Datagram d src) s
  = receive_once env (Datagram (recvfrom 1024 d) src) s.
Proof.
  unfold receive_once. rewrite recvfrom_twice. reflexivity.
Qed.

Lemma receive_once_datagram (d : bytes) (src : addr) (s : st t) (h : handle) :
  socket (self s) = Some h -> sock_is_open (sys s) h = true ->
  receive_once env (Datagram d src) s
  = (Done true, after env (recvfrom 1024 d) src s).
Proof.
  intros Hs Hopen. unfold receive_once, self_socket. run.
  rewrite Hs. run. rewrite Hopen.
  destruct (process_packet_outcome (recvfrom 1024 d) src s) as [rest [-> _]].
  reflexivity.
Qed.

End Running.

End BoardFacts.

(* ====================================================================== *)
(** * What the responder answers *)
(* ====================================================================== *)

Module Responder.
Import Py PyFacts VirtualLedBoard BoardFacts Examples.
Local Open Scope nat_scope.

Lemma starts_with (data : bytes) (b : byte) :
  hd_error data = Some b -> exists rest, data = b :: rest.
Proof.
  destruct data as [|x rest]; simpl; intros H; [discriminate|].
  inversion H. eauto.
Qed.

(** C1, as the code has it: a datagram whose first byte is 0x02 and that
    is shorter than three bytes is handled without an exception; the LED
    analysis prints that the packet is too short and parses neither an
    offset nor colour bytes; the acknowledgement byte 0x00 is nevertheless
    handed to [sendto] for the sender, once. *)
Theorem short_led_frame_is_acknowledged (env : environment) (data : bytes)
    (addr : addr) (s : st t) (h : handle) :
  hd_error data = Some x02 -> length data < 3 -> socket (self s) = Some h ->
  (exists s', _process_packet env data addr s = (Done tt, s'))
  /\ replies env data addr s = [(h, [x00], addr)]
  /\ exists ack,
       diagnostics env data addr s
       = banner env data addr s
         ++ [BCommand 2; BLedDataCmd; BLedTooShort; ack]
       /\ (ack = BAckSent \/ exists e, ack = BAckFailed e).
Proof.
  intros Hd Hlen Hs. destruct (starts_with _ Hd) as [rest ->].
  destruct (@process_led_data env x02 rest addr s h eq_refl Hs) as [l [H Hl]].
  destruct (observe_answered H) as [Hr Hp].
  split; [eauto|]. split; [exact Hr|].
  exists l. split; [|exact Hl].
  rewrite Hp. unfold led_report.
  destruct (Nat.ltb_spec (length (x02 :: rest)) 3); [reflexivity | lia].
Qed.

Lemma short_led_frame_is_acknowledged_witness :
  replies quiet [x02] client started_board = [(0, [x00], client)].
Proof.
  apply (@short_led_frame_is_acknowledged quiet [x02] client started_board 0);
    [reflexivity | simpl; lia | reflexivity].
Defined.

(** C1 as stated does not hold: the one-byte datagram 0x02 is answered. *)
Lemma short_led_frame_gets_a_reply :
  hd_error [x02] = Some x02
  /\ length [x02] < 3
  /\ replies quiet [x02] client started_board = [(0, [x00], client)]
  /\ replies quiet [x02] client started_board <> [].
Proof.
  split; [reflexivity|].
  split; [simpl; lia|].
  split; [reflexivity | vm_compute; discriminate].
Qed.

(** C3: with a socket to answer on, the first byte of a non-empty datagram
    decides the [sendto] calls: 0x01 gives the one payload 0x01, 0x04 the
    one payload 0x04 0x01, 0x03 the one payload 0x00, each addressed to the
    sender; a first byte other than 1, 2, 3, 4 gives no call, only the
    banner, the command, the unknown-command line and the hex dump. *)
Theorem reply_is_decided_by_first_byte (env : environment) (s : st t)
    (h : handle) (addr : addr) (rest : bytes) :
  socket (self s) = Some h ->
  replies env (x01 :: rest) addr s = [(h, [x01], addr)]
  /\ replies env (x04 :: rest) addr s = [(h, [x04; x01], addr)]
  /\ replies env (x03 :: rest) addr s = [(h, [x00], addr)]
  /\ forall b, ~ In (byte_int b) [1; 2; 3; 4]%Z ->
       replies env (b :: rest) addr s = []
       /\ diagnostics env (b :: rest) addr s
          = banner env (b :: rest) addr s
            ++ [BCommand (byte_int b); BUnknownCmd (byte_int b)]
            ++ hex_rows (b :: rest).
Proof.
  intros Hs. split; [|split; [|split]].
  - destruct (@process_heartbeat env x01 rest addr s h eq_refl Hs) as [l [H _]].
    apply (observe_answered H).
  - destruct (@process_connection env x04 rest addr s h eq_refl Hs)
      as [l [H _]].
    apply (observe_answered H).
  - destruct (@process_config env x03 rest addr s h eq_refl Hs) as [l [H _]].
    apply (observe_answered H).
  - intros b Hb.
    apply (observe_logged (process_unknown env b rest addr s Hb)).
Qed.

Lemma reply_is_decided_by_first_byte_witness :
  replies quiet [x01] client started_board = [(0, [x01], client)]
  /\ replies quiet [x04] client started_board = [(0, [x04; x01], client)]
  /\ replies quiet [x03; x2a] client started_board = [(0, [x00], client)]
  /\ replies quiet [x07; x2a] client started_board = [].
Proof.
  pose proof (@reply_is_decided_by_first_byte quiet started_board 0 client []
                eq_refl) as (H1 & H4 & _ & _).
  pose proof (@reply_is_decided_by_first_byte quiet started_board 0 client
                [x2a] eq_refl) as (_ & _ & H3 & Hu).
  assert (Hb : ~ In (byte_int x07) [1; 2; 3; 4]%Z)
    by (vm_compute; intuition discriminate).
  destruct (Hu x07 Hb) as [Hr _].
  exact (conj H1 (conj H4 (conj H3 Hr))).
Defined.

(** C4, as the code has it: an empty datagram is handled without an
    exception and without any [sendto]; it prints the banner and the
    empty-packet line; the packet counter goes up by one and the
    last-arrival time becomes the time of this arrival; no other attribute
    of the object, no socket, no zeroconf instance and no published record
    changes. *)
Theorem empty_datagram_is_counted_and_dropped (env : environment)
    (addr : addr) (s : st t) :
  let s' := after env [] addr s in
  _process_packet env [] addr s = (Done tt, s')
  /\ replies env [] addr s = []
  /\ diagnostics env [] addr s = banner env [] addr s ++ [BEmptyPacket]
  /\ packet_count (self s') = packet_count (self s) + 1
  /\ last_packet_time (self s') = Some (clock env (trace (sys s)))
  /\ self s' = set_last_packet_time (Some (clock env (trace (sys s))))
                 (set_packet_count (packet_count (self s) + 1) (self s))
  /\ socket (self s') = socket (self s)
  /\ running (self s') = running (self s)
  /\ zeroconf (self s') = zeroconf (self s)
  /\ service_info (self s') = service_info (self s)
  /\ socks (sys s') = socks (sys s)
  /\ zeroconfs (sys s') = zeroconfs (sys s)
  /\ published (sys s') = published (sys s).
Proof.
  pose proof (process_empty env addr s) as H.
  destruct (observe_logged H) as [Hr Hp].
  unfold after. rewrite H. cbn [snd].
  split; [reflexivity|].
  split; [exact Hr|].
  split; [exact Hp|].
  repeat split.
Qed.

(** C4 as stated does not hold: the empty datagram moves the counter from
    0 to 1 and sets the last-arrival time. *)
Lemma empty_datagram_changes_the_counters :
  packet_count (self started_board) = 0
  /\ packet_count (self (after quiet [] client started_board)) = 1
  /\ last_packet_time (self started_board) = None
  /\ last_packet_time (self (after quiet [] client started_board)) <> None
  /\ replies quiet [] client started_board = [].
Proof.
  split; [reflexivity|].
  split; [reflexivity|].
  split; [reflexivity|].
  split; [vm_compute; discriminate | reflexivity].
Qed.

(** The diagnostics of an LED-data frame of three bytes or more. *)
Lemma led_frame_diagnostics (env : environment) (data : bytes) (addr : addr)
    (s : st t) :
  hd_error data = Some x02 -> 3 <= length data ->
  exists ack,
    diagnostics env data addr s
    = banner env data addr s
      ++ [BCommand 2; BLedDataCmd;
          BOffset (at_ data 1 * 256 + at_ data 2)%Z;
          BLedDataLength (length (skipn 3 data))]
      ++ (if 0 <? length (skipn 3 data) then colors_report (skipn 3 data)
          else [])
      ++ BRawHeader :: hex_rows (firstn (Nat.min 32 (length data)) data)
      ++ [ack]
    /\ (ack = BAckSent \/ exists e, ack = BAckFailed e).
Proof.
  intros Hd Hlen. destruct (starts_with _ Hd) as [rest ->].
  destruct (@led_data_diagnostics env x02 rest addr s eq_refl) as [l [H Hl]].
  exists l. split; [|exact Hl].
  rewrite H. unfold led_report, led_frame_report.
  destruct (Nat.ltb_spec (length (x02 :: rest)) 3); [lia|].
  cbn [app]. rewrite <- !app_assoc. reflexivity.
Qed.

Ltac pick_through :=
  repeat first
    [ rewrite pick_app
    | rewrite pick_hex_rows by reflexivity
    | rewrite pick_grb_report by reflexivity
    | rewrite pick_grbw_report by reflexivity
    | rewrite pick_cons; cbv beta iota ].

(** C5, as the code has it: for an LED-data frame of three bytes or more,
    the GRB count is printed, once, exactly when the colour bytes
    [bytes[3:]] are not empty and their number is a multiple of 3, and it
    is that number divided by 3; independently the GRBW count is printed,
    once, exactly when the colour bytes are not empty and their number is
    a multiple of 4, and it is that number divided by 4.  Without colour
    bytes neither is printed. *)
Theorem led_counts_are_reported_for_colour_bytes (env : environment)
    (data : bytes) (addr : addr) (s : st t) :
  hd_error data = Some x02 -> 3 <= length data ->
  let colorBytes := skipn 3 data in
  grb_counts (diagnostics env data addr s)
  = (if (0 <? length colorBytes) && (length colorBytes mod 3 =? 0)
     then [length colorBytes / 3] else [])
  /\ grbw_counts (diagnostics env data addr s)
     = (if (0 <? length colorBytes) && (length colorBytes mod 4 =? 0)
        then [length colorBytes / 4] else []).
Proof.
  intros Hd Hlen colorBytes.
  destruct (led_frame_diagnostics env data addr s Hd Hlen) as [ack [-> Hack]].
  fold colorBytes. unfold grb_counts, grbw_counts, banner, colors_report.
  split.
  - destruct (0 <? length colorBytes); pick_through;
      destruct Hack as [->|[e ->]]; pick_through;
      destruct (length colorBytes mod 3 =? 0);
      destruct (length colorBytes mod 4 =? 0); reflexivity.
  - destruct (0 <? length colorBytes); pick_through;
      destruct Hack as [->|[e ->]]; pick_through;
      destruct (length colorBytes mod 3 =? 0);
      destruct (length colorBytes mod 4 =? 0); reflexivity.
Qed.

Lemma led_counts_are_reported_for_colour_bytes_witness :
  grb_counts
    (diagnostics quiet [x02; x00; x00; x00; xff; x00; x00; xff; x00]
       client started_board) = [2]
  /\ grbw_counts
       (diagnostics quiet [x02; x00; x00; x00; xff; x00; x00; xff; x00]
          client started_board) = [].
Proof.
  apply (@led_counts_are_reported_for_colour_bytes quiet
           [x02; x00; x00; x00; xff; x00; x00; xff; x00] client started_board
           eq_refl).
  simpl; lia.
Defined.

(** C5 as stated does not hold: for the frame 0x02 0x00 0x00 the colour
    bytes are empty, so their number is a multiple of 3 and of 4, and yet
    neither count is printed. *)
Lemma empty_colour_bytes_are_not_counted :
  let data := [x02; x00; x00] in
  hd_error data = Some x02 /\ 3 <= length data
  /\ length (skipn 3 data) mod 3 = 0 /\ length (skipn 3 data) mod 4 = 0
  /\ grb_counts (diagnostics quiet data client started_board) = []
  /\ grbw_counts (diagnostics quiet data client started_board) = [].
Proof.
  cbv zeta.
  split; [reflexivity|]. split; [simpl; lia|].
  split; [reflexivity|]. split; [reflexivity|].
  split; reflexivity.
Qed.

(** C6: for a datagram whose first byte is 0x02 and that has three bytes
    or more, the offset the analysis computes, [(bytes[1] << 8) | bytes[2]],
    is [bytes[1] * 256 + bytes[2]] and lies in 0..65535; it is the one
    offset printed; the one LED data length printed is that of
    [bytes[3:]], and the colour analysis is that of [bytes[3:]]. *)
Theorem led_frame_offset_and_colour_bytes (env : environment) (data : bytes)
    (addr : addr) (s : st t) :
  hd_error data = Some x02 -> 3 <= length data ->
  let offset := (at_ data 1 * 256 + at_ data 2)%Z in
  let colorBytes := skipn 3 data in
  Z.lor (Z.shiftl (at_ data 1) 8) (at_ data 2) = offset
  /\ (0 <= offset <= 65535)%Z
  /\ offsets (diagnostics env data addr s) = [offset]
  /\ led_data_lengths (diagnostics env data addr s) = [length colorBytes]
  /\ says (_analyze_led_data_packet data)
        ([BOffset offset; BLedDataLength (length colorBytes)]
         ++ (if 0 <? length colorBytes then colors_report colorBytes else [])
         ++ BRawHeader :: hex_rows (firstn (Nat.min 32 (length data)) data)).
Proof.
  intros Hd Hlen offset colorBytes.
  destruct (offset_of_bytes (nth 1 data x00) (nth 2 data x00)) as [Hor Hrange].
  split; [exact Hor|]. split; [exact Hrange|].
  destruct (led_frame_diagnostics env data addr s Hd Hlen) as [ack [-> Hack]].
  fold colorBytes offset.
  unfold offsets, led_data_lengths, banner, colors_report.
  split; [|split].
  - destruct (0 <? length colorBytes); pick_through;
      destruct Hack as [->|[e ->]]; pick_through;
      destruct (length colorBytes mod 3 =? 0);
      destruct (length colorBytes mod 4 =? 0); reflexivity.
  - destruct (0 <? length colorBytes); pick_through;
      destruct Hack as [->|[e ->]]; pick_through;
      destruct (length colorBytes mod 3 =? 0);
      destruct (length colorBytes mod 4 =? 0); reflexivity.
  - apply (says_eq (says_analyze_led_data_packet data)).
    unfold led_report, led_frame_report.
    destruct (Nat.ltb_spec (length data) 3); [lia | reflexivity].
Qed.

Lemma led_frame_offset_and_colour_bytes_witness :
  offsets (diagnostics quiet [x02; x01; x02; x00; xff; x00] client
             started_board) = [258%Z]
  /\ led_data_lengths (diagnostics quiet [x02; x01; x02; x00; xff; x00]
                         client started_board) = [3].
Proof.
  destruct (@led_frame_offset_and_colour_bytes quiet
              [x02; x01; x02; x00; xff; x00] client started_board eq_refl)
    as (_ & _ & Ho & Hn & _).
  - simpl; lia.
  - exact (conj Ho Hn).
Defined.

End Responder.

(* ====================================================================== *)
(** * The intercepting relay *)
(* ====================================================================== *)

Module RelayFacts.
Import Py PyFacts PacketInterceptor.
Local Open Scope py_scope.
Local Open Scope nat_scope.

(** ** The analysis only prints *)

Lemma says_relay_grb_loop (led_data : bytes) :
  length led_data mod 3 = 0 ->
  says (Self := t) (for_each (range (Nat.min 5 (length led_data / 3)))
          (fun i =>
             let offset := i * 3 in
             g <- getitem led_data offset ;;
             r <- getitem led_data (offset + 1) ;;
             b <- getitem led_data (offset + 2) ;;
             print (RGrbLed (i + 1) g r b)))
       (map (fun i => RGrbLed (i + 1) (at_ led_data (i * 3))
                        (at_ led_data (i * 3 + 1)) (at_ led_data (i * 3 + 2)))
            (range (Nat.min 5 (length led_data / 3)))).
Proof.
  intros Hm. apply says_for_each. intros i Hi s.
  apply in_seq in Hi.
  assert (i * 3 + 3 <= length led_data) by (apply group_in_range; lia).
  cbv zeta. rewrite !getitem_ok by lia. reflexivity.
Qed.

Lemma says_relay_grbw_loop (led_data : bytes) :
  length led_data mod 4 = 0 ->
  says (Self := t) (for_each (range (Nat.min 5 (length led_data / 4)))
          (fun i =>
             let offset := i * 4 in
             g <- getitem led_data offset ;;
             r <- getitem led_data (offset + 1) ;;
             b <- getitem led_data (offset + 2) ;;
             w <- getitem led_data (offset + 3) ;;
             print (RGrbwLed (i + 1) g r b w)))
       (map (fun i => RGrbwLed (i + 1) (at_ led_data (i * 4))
                        (at_ led_data (i * 4 + 1)) (at_ led_data (i * 4 + 2))
                        (at_ led_data (i * 4 + 3)))
            (range (Nat.min 5 (length led_data / 4)))).
Proof.
  intros Hm. apply says_for_each. intros i Hi s.
  apply in_seq in Hi.
  assert (i * 4 + 4 <= length led_data) by (apply group_in_range; lia).
  cbv zeta. rewrite !getitem_ok by lia. reflexivity.
Qed.

Lemma says_analyze_led_data (led_data : bytes) :
  says (analyze_led_data led_data) (led_report led_data).
Proof.
  unfold analyze_led_data, led_report. cbv zeta.
  apply says_seq.
  - unfold grb_report.
    destruct (Nat.eqb_spec (length led_data mod 3) 0) as [Hm|_].
    + apply says_print_then, says_relay_grb_loop, Hm.
    + apply says_ret.
  - unfold grbw_report.
    destruct (Nat.eqb_spec (length led_data mod 4) 0) as [Hm|_].
    + apply says_print_then, says_relay_grbw_loop, Hm.
    + apply says_ret.
Qed.

Ltac relay_proj :=
  proj;
  cbn [set_running set_packet_count set_listen_sock set_forward_sock
       target_ip target_port listen_port running packet_count listen_sock
       forward_sock counted].

Section Relaying.
Variable env : environment.

(** [analyze_packet] prints, returns, and changes nothing: for three
    bytes or more the parse of an LED frame whatever the first byte, for
    fewer the too-short line. *)
Lemma analyze_packet_prints (data : bytes) (addr : addr) (s : st t) :
  analyze_packet env data addr s
  = (Done tt,
     emit (banner env data addr s
           ++ (if 3 <=? length data then parsed_report data else [RTooShort]))
          s).
Proof.
  unfold analyze_packet.
  unfold bind at 1. unfold now at 1.
  unfold bind at 1. unfold get_self at 1.
  do 3 (erewrite bind_says by apply says_print; rewrite ?emit_emit).
  destruct (Nat.leb_spec 3 (length data)) as [H|H].
  - rewrite !getitem_ok by (rewrite ?emit_emit; lia).
    destruct data as [|b0 [|b1 [|b2 cb]]]; simpl in H; try lia.
    cbn [nth].
    destruct (offset_of_bytes b1 b2) as [-> _].
    do 3 (erewrite bind_says by apply says_print; rewrite ?emit_emit).
    unfold parsed_report, at_. cbn [nth].
    destruct (0 <? length (b0 :: b1 :: b2 :: cb) - 3).
    + erewrite bind_says by apply says_analyze_led_data.
      rewrite emit_emit.
      do 2 (erewrite bind_says by apply says_print; rewrite ?emit_emit).
      rewrite (says_print (Self := t) _), emit_emit.
      cbn [app]; rewrite <- ?app_assoc; reflexivity.
    + erewrite bind_says by apply says_ret.
      rewrite emit_emit.
      do 2 (erewrite bind_says by apply says_print; rewrite ?emit_emit).
      rewrite (says_print (Self := t) _), emit_emit.
      cbn [app]; rewrite <- ?app_assoc; reflexivity.
  - rewrite (says_print (Self := t) _), emit_emit. reflexivity.
Qed.

Lemma analysis_is_report (data : bytes) (addr : addr) (s : st t) :
  analysis env data addr s = report env data addr s.
Proof.
  unfold analysis. rewrite analyze_packet_prints. cbn [snd].
  rewrite (@new_effects_app (sys s) _ (map Stdout (report env data addr s)))
    by reflexivity.
  apply printed_stdout.
Qed.

Lemma udp_fits_relay_buffer : udp_max_payload <= Z.to_nat 65536.
Proof. unfold udp_max_payload. lia. Qed.

(** One pass of the loop on a datagram: count, analyse, one [sendto] to the
    target of the bytes [recvfrom(65536)] handed over, then the two
    closing lines, or nothing after a timeout, or the error line. *)
Lemma relay_once_datagram (d : bytes) (src : addr) (s : st t)
    (l f : handle) :
  listen_sock (self s) = Some l -> sock_is_open (sys s) l = true ->
  forward_sock (self s) = Some f ->
  exists closing,
    relay_once env (Datagram d src) s
    = (Done tt, relayed env (recvfrom 65536 d) src s f closing)
    /\ (closing = [RForwarded; RDash] \/ closing = []
        \/ exists e, closing = [RPacketError e]).
Proof.
  intros Hl Hopen Hf.
  unfold relay_once, relayed, local. run.
  rewrite Hl. run. rewrite Hopen.
  rewrite analyze_packet_prints. cbn [self emit set_packet_count forward_sock].
  rewrite Hf. cbn [sys emit].
  match goal with
  | |- context [faults env ?tr ?e] => destruct (faults env tr e) as [e'|]
  end.
  - destruct (is_timeout e') eqn:Et.
    + exists []. split; [|right; left; reflexivity].
      unfold emit at 2, record, counted. cbn [self sys].
      rewrite emit_nil. reflexivity.
    + exists [RPacketError e']. split; [reflexivity | right; right; eauto].
  - match goal with
    | |- context [sock_is_open ?o f] => destruct (sock_is_open o f)
    end.
    + exists [RForwarded; RDash]. split; [|left; reflexivity].
      unfold emit, emits, record, log, counted. cbn [self sys trace socks
        zeroconfs published map]. rewrite <- !app_assoc. reflexivity.
    + exists [RPacketError OSError]. split; [reflexivity | right; right; eauto].
Qed.

(** Only what [recvfrom(65536)] hands over of a datagram is looked at. *)
Lemma relay_once_cut (d : bytes) (src : addr) (s : st t) :
  relay_once env (Datagram d src) s
  = relay_once env (Datagram (recvfrom 65536 d) src) s.
Proof.
  unfold relay_once. rewrite recvfrom_twice. reflexivity.
Qed.

(** What can be observed of such a pass. *)
Lemma observe_relayed (a : arrival) (data : bytes) (addr : addr) (s : st t)
    (f : handle) (closing : list line) :
  relay_once env a s = (Done tt, relayed env data addr s f closing) ->
  forwarded env a s = [(f, data, target (self s))].
Proof.
  intros H. unfold forwarded. rewrite H. cbn [snd].
  rewrite (@new_effects_app (sys s) _
             (map Stdout (report env data addr (counted s))
              ++ [Sendto f data (target (self s))] ++ map Stdout closing)).
  - rewrite !sendto_calls_app, !sendto_calls_stdout. reflexivity.
  - cbn. rewrite <- !app_assoc. reflexivity.
Qed.

(** The loop forwards the datagrams it receives one by one, in order, and
    waits for the next. *)
Lemma relay_wait_forwards (src : addr) (ds : list bytes) (s : st t)
    (l f : handle) :
  listen_sock (self s) = Some l -> sock_is_open (sys s) l = true ->
  forward_sock (self s) = Some f -> running (self s) = true ->
  Forall (fun d => length d <= udp_max_payload) ds ->
  exists s' tr,
    relay_wait env (map (fun d => Datagram d src) ds) s = (Done Blocked, s')
    /\ trace (sys s') = trace (sys s) ++ tr
    /\ sendto_calls tr = map (fun d => (f, d, target (self s))) ds
    /\ packet_count (self s') = packet_count (self s) + length ds.
Proof.
  intros Hl Hopen Hf Hrun Hds. revert s Hl Hopen Hf Hrun.
  induction Hds as [|d ds Hd Hds IH]; intros s Hl Hopen Hf Hrun.
  - exists s, []. cbn. rewrite app_nil_r, Nat.add_0_r. auto.
  - cbn [map relay_wait]. unfold bind at 1.
    destruct (relay_once_datagram d src s Hl Hopen Hf) as [closing [-> _]].
    rewrite recvfrom_whole by (pose proof udp_fits_relay_buffer; lia).
    set (s1 := relayed env d src s f closing).
    unfold bind at 1, get_self at 1.
    assert (Hrun1 : running (self s1) = true) by exact Hrun.
    rewrite Hrun1.
    destruct (IH s1 Hl Hopen Hf Hrun1)
      as (s' & tr & -> & Htr & Hcalls & Hcount).
    exists s',
      (map Stdout (report env d src (counted s))
       ++ [Sendto f d (target (self s))] ++ map Stdout closing ++ tr).
    split; [reflexivity|]. split; [|split].
    + rewrite Htr. unfold s1, relayed.
      cbn [trace sys emit emits record log counted self].
      rewrite <- !app_assoc. reflexivity.
    + rewrite !sendto_calls_app, !sendto_calls_stdout, Hcalls. reflexivity.
    + rewrite Hcount. unfold s1. cbn. lia.
Qed.

(** ** The sockets of a run of [start_interceptor] *)

Lemma same_sockets_refl s : same_sockets s s.
Proof. repeat split. Qed.

Lemma same_sockets_trans s1 s2 s3 :
  same_sockets s1 s2 -> same_sockets s2 s3 -> same_sockets s1 s3.
Proof. unfold same_sockets. intuition congruence. Qed.

(** [stop()] lowers the flag and prints; that is all. *)
Lemma relay_stop_spec (s : st t) :
  stop s
  = (Done tt,
     emit [RStopping] {| self := set_running false (self s); sys := sys s |}).
Proof. reflexivity. Qed.

Ltac same_sockets_now :=
  eexists; (split; [reflexivity|]); unfold same_sockets; relay_proj; auto.

Lemma relay_once_frame (a : arrival) (s : st t) :
  exists s', relay_once env a s = (Done tt, s') /\ same_sockets s s'.
Proof.
  unfold relay_once, local. destruct a as [d src|e|]; run.
  - destruct (listen_sock (self s)) as [l|] eqn:Hl; run;
      [|same_sockets_now].
    destruct (sock_is_open (sys s) l); run; [|same_sockets_now].
    rewrite analyze_packet_prints. relay_proj.
    destruct (forward_sock (self s)) as [f|] eqn:Hf; run; relay_proj;
      [|same_sockets_now].
    fault_cases.
    + match goal with
      | |- context [is_timeout ?e] => destruct (is_timeout e)
      end; same_sockets_now.
    + match goal with
      | |- context [sock_is_open ?o f] => destruct (sock_is_open o f)
      end; run; same_sockets_now.
  - destruct (is_timeout e); same_sockets_now.
  - same_sockets_now.
Qed.

Lemma relay_wait_frame (arrivals : list arrival) (s : st t) :
  exists status s',
    relay_wait env arrivals s = (Done status, s') /\ same_sockets s s'.
Proof.
  revert s. induction arrivals as [|a rest IH]; intros s.
  - do 2 eexists. split; [reflexivity | apply same_sockets_refl].
  - assert (Hstep : forall s1, same_sockets s s1 ->
              exists status s',
                (self0 <- get_self ;;
                 if running self0 then relay_wait env rest else ret Exited) s1
                = (Done status, s') /\ same_sockets s s').
    { intros s1 H1. run. destruct (running (self s1)).
      - destruct (IH s1) as (st & s' & -> & H).
        do 2 eexists. split; [reflexivity|].
        eapply same_sockets_trans; eassumption.
      - do 2 eexists. split; [reflexivity | exact H1]. }
    destruct a as [d src|e|].
    + cbn [relay_wait]. unfold bind at 1.
      destruct (relay_once_frame (Datagram d src) s) as (s1 & -> & H1).
      apply Hstep, H1.
    + cbn [relay_wait]. unfold bind at 1.
      destruct (relay_once_frame (RecvRaises e) s) as (s1 & -> & H1).
      apply Hstep, H1.
    + cbn [relay_wait]. unfold bind at 1. rewrite relay_stop_spec.
      match goal with
      | |- context [relay_wait env rest ?st] =>
          destruct (IH st) as (status & s' & -> & H)
      end.
      do 2 eexists. split; [reflexivity|].
      eapply same_sockets_trans; [|exact H]. repeat split.
Qed.

(** The sockets made by lines 28-32 are the ones the two local variables
    hold. *)
Lemma open_sockets_and_run_held (s : st t) :
  exists r s1, open_sockets_and_run env s = (r, s1) /\ held s s1.
Proof.
  unfold open_sockets_and_run. run. relay_proj.
  set (n := length (socks (sys s))).
  fault_cases; relay_proj.
  all: do 2 eexists; split; [reflexivity|].
  all: intros h; unfold sock_is_open; relay_proj.
  all: intros Hopen.
  - auto.
  - apply is_open_new in Hopen. fold n in Hopen. destruct Hopen; auto.
  - apply is_open_set in Hopen. destruct Hopen as [Hopen|]; auto.
    apply is_open_new in Hopen. fold n in Hopen. destruct Hopen; auto.
  - apply is_open_new in Hopen.
    destruct Hopen as [Hopen|Hopen].
    + apply is_open_set in Hopen. destruct Hopen as [Hopen|]; auto.
      apply is_open_new in Hopen. fold n in Hopen. destruct Hopen; auto.
    + right. right. split; [discriminate|]. f_equal. exact (eq_sym Hopen).
Qed.

Lemma close_sockets_spec (s : st t) :
  exists s',
    close_sockets s = (Done tt, s')
    /\ forall h, sock_is_open (sys s') h = true ->
         sock_is_open (sys s) h = true
         /\ listen_sock (self s) <> Some h
         /\ (listen_sock (self s) <> None -> forward_sock (self s) <> Some h).
Proof.
  unfold close_sockets, local. run.
  destruct (listen_sock (self s)) as [l|]; run;
    [destruct (forward_sock (self s)) as [f|]; run|].
  all: eexists; split; [reflexivity|].
  all: intros h; unfold sock_is_open; relay_proj;
       rewrite ?open_after_close; intros Hopen.
  all: repeat match goal with
              | H : _ && _ = true |- _ => apply andb_prop in H; destruct H
              | H : negb (_ =? _) = true |- _ =>
                  apply negb_true_iff, Nat.eqb_neq in H
              end.
  all: repeat split; try assumption; try congruence.
Qed.

Lemma start_interceptor_returns (arrivals : list arrival) (s : st t) :
  exists status s',
    start_interceptor env arrivals s = (Done status, s')
    /\ (status = Exited ->
        forall h, sock_is_open (sys s') h = true ->
                  sock_is_open (sys s) h = true).
Proof.
  unfold start_interceptor. run. relay_proj.
  set (s0 := {| self := self s; sys := _ |}).
  assert (H0 : forall h, sock_is_open (sys s0) h = sock_is_open (sys s) h)
    by reflexivity.
  destruct (open_sockets_and_run_held s0) as (r & s1 & -> & Hheld).
  assert (Hfinal : forall s2 s' : st t,
            same_sockets s1 s2 ->
            (forall h, sock_is_open (sys s') h = true ->
               sock_is_open (sys s2) h = true
               /\ listen_sock (self s2) <> Some h
               /\ (listen_sock (self s2) <> None ->
                   forward_sock (self s2) <> Some h)) ->
            forall h, sock_is_open (sys s') h = true ->
                      sock_is_open (sys s) h = true).
  { intros s2 s' (Hsocks & Hl & Hf) Hc h Hopen.
    destruct (Hc h Hopen) as (Ho & Hnl & Hnf).
    rewrite Hl in Hnl. rewrite Hl, Hf in Hnf.
    assert (Ho1 : sock_is_open (sys s1) h = true).
    { unfold sock_is_open in *. rewrite <- Hsocks. exact Ho. }
    destruct (Hheld h Ho1) as [H|[H|[H1 H2]]].
    - rewrite <- H0. exact H.
    - contradiction.
    - destruct (Hnf H1 H2). }
  destruct r as [[]|e]; run.
  - destruct (running (self s1)).
    + destruct (relay_wait_frame arrivals s1) as (st & s2 & -> & Hsame).
      destruct st.
      * destruct (close_sockets_spec s2) as (s' & -> & Hc).
        do 2 eexists. split; [reflexivity|]. intros _.
        apply (Hfinal s2 s' Hsame Hc).
      * do 2 eexists. split; [reflexivity | discriminate].
    + destruct (close_sockets_spec s1) as (s' & -> & Hc).
      do 2 eexists. split; [reflexivity|]. intros _.
      apply (Hfinal s1 s' (same_sockets_refl s1) Hc).
  - match goal with
    | |- context [close_sockets ?st] =>
        destruct (close_sockets_spec st) as (s' & -> & Hc);
        do 2 eexists; (split; [reflexivity|]); intros _;
        apply (Hfinal st s'); [repeat split | exact Hc]
    end.
Qed.

End Relaying.
End RelayFacts.

(* ====================================================================== *)
(** * What the relay forwards and logs *)
(* ====================================================================== *)

Module Relay.
Import Py PyFacts PacketInterceptor RelayFacts Examples.
Local Open Scope nat_scope.

(** C2: in a pass of the relay's loop that receives the datagram [d], with
    the listening socket open and the forwarding socket made, nothing
    raises and [sendto] is called exactly once, on the forwarding socket,
    with the bytes of [d] themselves and the configured target address;
    this holds for every [d] a UDP datagram can carry, the empty one and
    those the analysis cannot parse included, whatever the outside world
    does.  Over a run of the loop the [sendto] calls are the datagrams
    received, one each, in the order of arrival. *)
Theorem relay_forwards_the_datagram_unchanged (env : environment)
    (d : bytes) (src : addr) (s : st t) (l f : handle) :
  listen_sock (self s) = Some l -> sock_is_open (sys s) l = true ->
  forward_sock (self s) = Some f ->
  length d <= udp_max_payload ->
  (exists s', relay_once env (Datagram d src) s = (Done tt, s'))
  /\ forwarded env (Datagram d src) s
     = [(f, d, (target_ip (self s), target_port (self s)))]
  /\ forall ds,
       running (self s) = true ->
       Forall (fun d => length d <= udp_max_payload) ds ->
       exists s',
         relay_wait env (map (fun d => Datagram d src) ds) s
         = (Done Blocked, s')
         /\ sendto_calls (new_effects (sys s) (sys s'))
            = map (fun d => (f, d, (target_ip (self s), target_port (self s))))
                  ds.
Proof.
  intros Hl Hopen Hf Hlen.
  destruct (relay_once_datagram env d src s Hl Hopen Hf) as [closing [H _]].
  rewrite recvfrom_whole in H by (pose proof udp_fits_relay_buffer; lia).
  split; [eauto|].
  split; [apply observe_relayed with (1 := H)|].
  intros ds Hrun Hds.
  destruct (relay_wait_forwards env src s Hl Hopen Hf Hrun Hds)
    as (s' & tr & Hw & Htr & Hcalls & _).
  exists s'. split; [exact Hw|].
  rewrite new_effects_app with (1 := Htr). exact Hcalls.
Qed.

Lemma relay_forwards_the_datagram_unchanged_witness :
  forwarded quiet (Datagram [] client) waiting_relay
  = [(1, [], ("192.168.31.182"%string, 23042%Z))]
  /\ forwarded quiet (Datagram [x07; xff] client) waiting_relay
     = [(1, [x07; xff], ("192.168.31.182"%string, 23042%Z))].
Proof.
  split.
  - apply (@relay_forwards_the_datagram_unchanged quiet [] client
             waiting_relay 0 1); try reflexivity.
    unfold udp_max_payload. simpl length. lia.
  - apply (@relay_forwards_the_datagram_unchanged quiet [x07; xff] client
             waiting_relay 0 1); try reflexivity.
    unfold udp_max_payload. simpl length. lia.
Defined.

(** C10: the relay's analysis prints, for every datagram of three bytes or
    more and whatever its first byte, that byte as the command,
    [bytes[1] * 256 + bytes[2]] as the offset, the number of bytes after
    the third as the LED data length and, when there are any, the GRB and
    GRBW reading of [bytes[3:]]; for every datagram of fewer than three
    bytes, the one-byte heartbeat 0x01 and connection check 0x04 among
    them, it prints only that the packet is too short.  What is forwarded
    is the datagram in every case. *)
Theorem relay_analysis_reads_every_datagram_as_led_data (env : environment)
    (data : bytes) (addr : addr) (s : st t) :
  (3 <= length data ->
   analysis env data addr s
   = banner env data addr s
     ++ [RCommand (at_ data 0);
         ROffset (at_ data 1 * 256 + at_ data 2)%Z;
         RLedDataLength (length data - 3)]
     ++ (if 0 <? length data - 3 then led_report (skipn 3 data) else [])
     ++ [RRawHeader (Nat.min 32 (length data));
         RRawHex (firstn (Nat.min 32 (length data)) data);
         RRawAscii (firstn (Nat.min 32 (length data)) data)])
  /\ (length data < 3 ->
      analysis env data addr s = banner env data addr s ++ [RTooShort])
  /\ analysis env [x01] addr s = banner env [x01] addr s ++ [RTooShort]
  /\ analysis env [x04] addr s = banner env [x04] addr s ++ [RTooShort]
  /\ (forall l f,
        listen_sock (self s) = Some l -> sock_is_open (sys s) l = true ->
        forward_sock (self s) = Some f ->
        length data <= udp_max_payload ->
        forwarded env (Datagram data addr) s = [(f, data, target (self s))]).
Proof.
  rewrite !analysis_is_report. unfold report.
  split; [|split; [|split; [|split]]].
  - intros H. destruct (Nat.leb_spec 3 (length data)); [reflexivity | lia].
  - intros H. destruct (Nat.leb_spec 3 (length data)); [lia | reflexivity].
  - reflexivity.
  - reflexivity.
  - intros l f Hl Hopen Hf Hlen.
    destruct (relay_once_datagram env data addr s Hl Hopen Hf)
      as [closing [H _]].
    rewrite recvfrom_whole in H by (pose proof udp_fits_relay_buffer; lia).
    apply observe_relayed with (1 := H).
Qed.

Lemma relay_analysis_reads_every_datagram_as_led_data_witness :
  analysis quiet [x01; x01; x02; x00; xff; x00] client waiting_relay
  = banner quiet [x01; x01; x02; x00; xff; x00] client waiting_relay
    ++ [RCommand 1; ROffset 258; RLedDataLength 3;
        RGrbCount 1; RGrbLed 1 0 255 0;
        RRawHeader 6;
        RRawHex [x01; x01; x02; x00; xff; x00];
        RRawAscii [x01; x01; x02; x00; xff; x00]]
  /\ analysis quiet [x01] client waiting_relay
     = banner quiet [x01] client waiting_relay ++ [RTooShort]
  /\ forwarded quiet (Datagram [x01] client) waiting_relay
     = [(1, [x01], ("192.168.31.182"%string, 23042%Z))].
Proof.
  destruct (relay_analysis_reads_every_datagram_as_led_data quiet
              [x01; x01; x02; x00; xff; x00] client waiting_relay)
    as (Hlong & _).
  destruct (relay_analysis_reads_every_datagram_as_led_data quiet
              [x01] client waiting_relay)
    as (_ & Hshort & _ & _ & Hfwd).
  split; [apply Hlong; simpl; lia|].
  split; [apply Hshort; simpl; lia|].
  apply (Hfwd 0 1); try reflexivity.
  unfold udp_max_payload. simpl length. lia.
Defined.

End Relay.

(* ====================================================================== *)
(** * Starting, stopping and the receive buffers *)
(* ====================================================================== *)

Module Lifecycle.
Import Py PyFacts Examples.
Local Open Scope nat_scope.

Local Abbreviation board := (st VirtualLedBoard.t).
Local Abbreviation relay := (st PacketInterceptor.t).
Local Abbreviation board_stop := VirtualLedBoard.stop.
Local Abbreviation relay_stop := PacketInterceptor.stop.
Local Abbreviation start_interceptor := PacketInterceptor.start_interceptor.

(** C7, as the code has it.  Calling [stop()] twice raises nothing, on
    either component.  The responder's [stop()] lowers the flag, closes
    the socket of the object and opens none, and it starts by asking
    zeroconf to unregister the record when one was published: when that
    call does not raise, no record of that name stays published.  The
    relay's [stop()] lowers the flag and touches no socket: the sockets of
    a run of [start_interceptor] are closed by that run, once its loop has
    been left. *)
Theorem stop_twice (env : environment) :
  (forall b : board,
     exists b1 b2,
       board_stop env b = (Done tt, b1)
       /\ board_stop env b1 = (Done tt, b2)
       /\ VirtualLedBoard.running (self b1) = false
       /\ VirtualLedBoard.running (self b2) = false
       /\ (forall h, VirtualLedBoard.socket (self b) = Some h ->
                     sock_is_open (sys b1) h = false
                     /\ sock_is_open (sys b2) h = false)
       /\ (forall h, sock_is_open (sys b2) h = true ->
                     sock_is_open (sys b) h = true)
       /\ (forall z info,
             VirtualLedBoard.zeroconf (self b) = Some z ->
             VirtualLedBoard.service_info (self b) = Some info ->
             hd_error (new_effects (sys b) (sys b1))
             = Some (ZcUnregister z info)
             /\ (faults env (trace (sys b)) (ZcUnregister z info) = None ->
                 forall i, In i (published (sys b1)) ->
                           name i <> name info)))
  /\ (forall r : relay,
        exists r1 r2,
          relay_stop r = (Done tt, r1)
          /\ relay_stop r1 = (Done tt, r2)
          /\ PacketInterceptor.running (self r2) = false
          /\ socks (sys r2) = socks (sys r)
          /\ PacketInterceptor.listen_sock (self r2)
             = PacketInterceptor.listen_sock (self r)
          /\ PacketInterceptor.forward_sock (self r2)
             = PacketInterceptor.forward_sock (self r))
  /\ (forall (arrivals : list arrival) (r : relay),
        exists status r',
          start_interceptor env arrivals r = (Done status, r')
          /\ (status = Exited ->
              forall h, sock_is_open (sys r') h = true ->
                        sock_is_open (sys r) h = true)).
Proof.
  split; [|split].
  - intros b.
    destruct (BoardFacts.board_stop_spec env b)
      as (b1 & H1 & Hself1 & Hopen1 & Hzc).
    destruct (BoardFacts.board_stop_spec env b1)
      as (b2 & H2 & Hself2 & Hopen2 & _).
    exists b1, b2.
    split; [exact H1|]. split; [exact H2|].
    split; [rewrite Hself1; reflexivity|].
    split; [rewrite Hself2; reflexivity|].
    split; [|split; [|exact Hzc]].
    + intros h Hh.
      assert (E1 : sock_is_open (sys b1) h = false).
      { rewrite Hopen1, Hh, Nat.eqb_refl. apply andb_false_r. }
      split; [exact E1|]. rewrite Hopen2, E1. reflexivity.
    + intros h Hh. rewrite Hopen2, Hopen1 in Hh.
      apply andb_prop in Hh. destruct Hh as [Hh _].
      apply andb_prop in Hh. destruct Hh as [Hh _]. exact Hh.
  - intros r. do 2 eexists.
    split; [apply RelayFacts.relay_stop_spec|].
    split; [apply RelayFacts.relay_stop_spec|].
    repeat split.
  - intros arrivals r. apply RelayFacts.start_interceptor_returns.
Qed.

Lemma stop_twice_witness :
  exists b1 b2,
    board_stop quiet started_board = (Done tt, b1)
    /\ board_stop quiet b1 = (Done tt, b2)
    /\ sock_is_open (sys started_board) 0 = true
    /\ sock_is_open (sys b1) 0 = false
    /\ sock_is_open (sys b2) 0 = false
    /\ forall i, In i (published (sys b1)) -> name i <> name advertised.
Proof.
  destruct (stop_twice quiet) as [Hb _].
  destruct (Hb started_board) as (b1 & b2 & H1 & H2 & _ & _ & Hc & _ & Hz).
  exists b1, b2.
  assert (Hsock : VirtualLedBoard.socket (self started_board) = Some 0)
    by (vm_compute; reflexivity).
  assert (Hzc : VirtualLedBoard.zeroconf (self started_board) = Some 0)
    by (vm_compute; reflexivity).
  assert (Hinfo : VirtualLedBoard.service_info (self started_board)
                  = Some advertised)
    by (vm_compute; reflexivity).
  destruct (Hc 0 Hsock) as [Hc1 Hc2].
  destruct (Hz 0 advertised Hzc Hinfo) as [_ Hgone].
  split; [exact H1|]. split; [exact H2|].
  split; [vm_compute; reflexivity|]. split; [exact Hc1|]. split; [exact Hc2|].
  apply Hgone. reflexivity.
Defined.

(** C7 as stated does not hold for the relay: with its loop waiting in
    [recvfrom], two calls of [stop()] return and leave the bound
    listening socket, and the forwarding socket, open. *)
Lemma relay_stop_leaves_the_sockets_open :
  let r1 := snd (relay_stop waiting_relay) in
  let r2 := snd (relay_stop r1) in
  let run := start_interceptor quiet [StopCalled; StopCalled] fresh_relay in
  fst (relay_stop waiting_relay) = Done tt
  /\ fst (relay_stop r1) = Done tt
  /\ PacketInterceptor.running (self waiting_relay) = true
  /\ PacketInterceptor.listen_sock (self waiting_relay) = Some 0
  /\ nth_error (socks (sys r2)) 0
     = Some (SockOpen (Some ("0.0.0.0"%string, 8889%Z)))
  /\ sock_is_open (sys r2) 0 = true
  /\ open_sockets (sys r2) = [0; 1]
  /\ fst run = Done Blocked
  /\ open_sockets (sys (snd run)) = [0; 1].
Proof.
  cbv zeta. repeat (split; [reflexivity|]). reflexivity.
Qed.

(** C8: when making the socket, setting its option, binding it and
    starting the thread do not raise, [start()] returns [True] with the
    flag raised, the socket of the object bound to the configured address
    and the receive thread started as its last act, whether or not the
    zeroconf library is there ([mdns_enabled]) and whatever the resolver
    and zeroconf do, raise included. *)
Theorem start_does_not_depend_on_discovery (env : environment) (s : board) :
  (forall tr h, faults env tr (SocketNew h) = None) ->
  (forall tr h, faults env tr (Setsockopt h) = None) ->
  (forall tr h a, faults env tr (Bind h a) = None) ->
  (forall tr, faults env tr (ThreadStart ReceiveLoop) = None) ->
  let h := length (socks (sys s)) in
  let bound :=
    SockOpen (Some (VirtualLedBoard.host (self s),
                    VirtualLedBoard.port (self s))) in
  exists s',
    VirtualLedBoard.start env s = (Done true, s')
    /\ VirtualLedBoard.running (self s') = true
    /\ VirtualLedBoard.socket (self s') = Some h
    /\ nth_error (socks (sys s')) h = Some bound
    /\ last (trace (sys s')) (Stdout BRule) = ThreadStart ReceiveLoop.
Proof.
  intros Hnew Hopt Hbind Hthread h bound.
  assert (Hh : nth_error (set_nth h bound (socks (sys s) ++ [SockOpen None])) h
               = Some bound).
  { apply nth_error_set_nth_same. rewrite length_app. simpl. unfold h. lia. }
  unfold VirtualLedBoard.start. run.
  rewrite Hnew. run. rewrite Hopt. run. rewrite Hbind. run.
  BoardFacts.board_proj.
  destruct (VirtualLedBoard.mdns_enabled (self s)).
  - match goal with
    | |- context [VirtualLedBoard._start_mdns_service env ?st] =>
        destruct (BoardFacts.mdns_is_harmless env st)
          as (b & s1 & -> & Hsocks & Hsock & Hrun)
    end.
    BoardFacts.board_proj.
    BoardFacts.board_proj_in Hsocks.
    BoardFacts.board_proj_in Hsock.
    BoardFacts.board_proj_in Hrun.
    destruct b; run; rewrite Hthread; run.
    all: eexists; split; [reflexivity|]; BoardFacts.board_proj.
    all: rewrite Hsocks, Hsock, Hrun.
    all: repeat split; try exact Hh; apply last_last.
  - run. rewrite Hthread. run.
    eexists; split; [reflexivity|]. BoardFacts.board_proj.
    repeat split; try exact Hh; apply last_last.
Qed.

Lemma start_does_not_depend_on_discovery_witness :
  (exists s',
     VirtualLedBoard.start no_discovery (fresh_board true) = (Done true, s')
     /\ VirtualLedBoard.running (self s') = true
     /\ VirtualLedBoard.socket (self s') = Some 0
     /\ nth_error (socks (sys s')) 0
        = Some (SockOpen (Some ("0.0.0.0"%string, 8888%Z)))
     /\ last (trace (sys s')) (Stdout BRule) = ThreadStart ReceiveLoop)
  /\ (exists s',
        VirtualLedBoard.start quiet (fresh_board false) = (Done true, s')
        /\ VirtualLedBoard.running (self s') = true
        /\ VirtualLedBoard.socket (self s') = Some 0
        /\ nth_error (socks (sys s')) 0
           = Some (SockOpen (Some ("0.0.0.0"%string, 8888%Z)))
        /\ last (trace (sys s')) (Stdout BRule) = ThreadStart ReceiveLoop).
Proof.
  split.
  - apply (@start_does_not_depend_on_discovery no_discovery
             (fresh_board true)); intros; reflexivity.
  - apply (@start_does_not_depend_on_discovery quiet (fresh_board false));
      intros; reflexivity.
Defined.

(** C9: the responder looks at no more of a datagram than what
    [recvfrom(1024)] hands over, its first 1024 bytes: a longer datagram
    is handled as those bytes alone, with the length line saying 1024, and
    a frame for all 500 advertised LEDs, 3 + 1500 or 3 + 2000 bytes, is
    never handled whole.  The relay looks at what [recvfrom(65536)] hands
    over, which is what it forwards. *)
Theorem receive_buffers (env : environment) (d : bytes) (src : addr) :
  (forall s : board,
     VirtualLedBoard.receive_once env (Datagram d src) s
     = VirtualLedBoard.receive_once env (Datagram (recvfrom 1024 d) src) s)
  /\ (forall (s : board) (h : handle),
        VirtualLedBoard.socket (self s) = Some h ->
        sock_is_open (sys s) h = true ->
        VirtualLedBoard.receive_once env (Datagram d src) s
        = (Done true, VirtualLedBoard.after env (recvfrom 1024 d) src s)
        /\ exists rest,
             VirtualLedBoard.diagnostics env (recvfrom 1024 d) src s
             = VirtualLedBoard.banner env (recvfrom 1024 d) src s ++ rest)
  /\ recvfrom 1024 d = firstn 1024 d
  /\ length (recvfrom 1024 d) = Nat.min 1024 (length d)
  /\ (1024 < length d ->
      recvfrom 1024 d <> d /\ length (recvfrom 1024 d) = 1024)
  /\ (In ("max_leds", "500")%string VirtualLedBoard.txt_properties
      /\ (length d = 3 + 500 * 3 \/ length d = 3 + 500 * 4 ->
          recvfrom 1024 d <> d))
  /\ (forall r : relay,
        PacketInterceptor.relay_once env (Datagram d src) r
        = PacketInterceptor.relay_once env
            (Datagram (recvfrom 65536 d) src) r)
  /\ (forall (r : relay) (l f : handle),
        PacketInterceptor.listen_sock (self r) = Some l ->
        sock_is_open (sys r) l = true ->
        PacketInterceptor.forward_sock (self r) = Some f ->
        PacketInterceptor.forwarded env (Datagram d src) r
        = [(f, recvfrom 65536 d, PacketInterceptor.target (self r))])
  /\ length (recvfrom 65536 d) = Nat.min (Z.to_nat 65536) (length d).
Proof.
  assert (Hk : Z.to_nat 1024 = 1024) by reflexivity.
  split; [intros s; apply BoardFacts.receive_once_cut|].
  split.
  { intros s h Hs Hopen.
    split; [apply (BoardFacts.receive_once_datagram env d src s Hs Hopen)|].
    destruct (BoardFacts.process_packet_outcome env (recvfrom 1024 d) src s)
      as (rest & _ & H & _).
    eauto. }
  split; [reflexivity|].
  split; [rewrite recvfrom_length, Hk; reflexivity|].
  split.
  { intros H. destruct (@recvfrom_cut 1024 d) as [Hne Hlen]; [lia|].
    split; [exact Hne | rewrite Hlen; exact Hk]. }
  split.
  { split; [simpl; tauto|].
    intros H. apply recvfrom_cut. lia. }
  split; [intros r; apply RelayFacts.relay_once_cut|].
  split; [|apply recvfrom_length].
  intros r l f Hl Hopen Hf.
  destruct (RelayFacts.relay_once_datagram env d src r Hl Hopen Hf)
    as [closing [H _]].
  eapply RelayFacts.observe_relayed. exact H.
Qed.

Lemma receive_buffers_witness :
  let frame := repeat x02 (3 + 500 * 3) in
  VirtualLedBoard.receive_once quiet (Datagram frame client) started_board
  = (Done true,
     VirtualLedBoard.after quiet (repeat x02 1024) client started_board)
  /\ PacketInterceptor.forwarded quiet (Datagram frame client) waiting_relay
     = [(1, frame, ("192.168.31.182"%string, 23042%Z))].
Proof.
  cbv zeta.
  destruct (receive_buffers quiet (repeat x02 (3 + 500 * 3)) client)
    as (_ & Hb & _ & _ & _ & _ & _ & Hr & _).
  split.
  - apply (Hb started_board 0); vm_compute; reflexivity.
  - apply (Hr waiting_relay 0 1); vm_compute; reflexivity.
Defined.

End Lifecycle.
